(** * AiImpactAnalyzer front end: list filtering, pagination, form submit,
      and the analysis context's reducer and fetch wrapper.

    Shallow embedding of
      - [src/frontend/src/pages/Coverage.jsx]            (module [Coverage]),
      - the provider of [src/frontend/src/context/AnalysisContext.jsx]
                                                         (module [AnalysisContext]),
      - the Repositories page, whose source follows the provider in the
        same file                                        (module [Repositories]),
      - the error banner of [src/frontend/src/components/Navbar.jsx]
                                                         (module [Navbar]).

    Conventions of the model.
      - A JavaScript string is a [string]; the model covers text in the
        ASCII range, where [toLowerCase] maps 'A'..'Z' to 'a'..'z' and
        leaves every other code unit alone.
      - A JavaScript integer-valued number (an id, a page number, an array
        length, an HTTP status) is a [Z].
      - An array is a [list]; a plain object used as a dictionary (the
        [stats] object) is a [gmap string _].
      - [useState]/[useReducer] state is passed explicitly; an updater
        [setX (prev => f prev)] is the function [f] applied to the list. *)

From Stdlib Require Import ZArith List Bool Ascii String DecimalString
  DecimalZ Lia.
From stdpp Require Import base option list strings gmap fin_maps.
Import ListNotations.

(* ===================================================================== *)
(** ** JavaScript strings *)
(* ===================================================================== *)

Module JsString.

(** One code unit of [String.prototype.toLowerCase], ASCII range. *)
Definition lower_char (c : ascii) : ascii :=
  let n := N_of_ascii c in
  if ((65 <=? n)%N && (n <=? 90)%N)%bool then ascii_of_N (n + 32) else c.

(** [s.toLowerCase()] *)
Fixpoint toLowerCase (s : string) : string :=
  match s with
  | EmptyString => EmptyString
  | String c s' => String (lower_char c) (toLowerCase s')
  end.

(** [s.startsWith(t)] *)
Fixpoint startsWith (s t : string) : bool :=
  match t, s with
  | EmptyString, _ => true
  | String _ _, EmptyString => false
  | String b t', String a s' => (Ascii.eqb a b && startsWith s' t')%bool
  end.

(** [s.includes(t)]: [t] occurs in [s] at some position, searched from
    position 0 onwards. *)
Fixpoint includes (s t : string) : bool :=
  (startsWith s t ||
   match s with
   | EmptyString => false
   | String _ s' => includes s' t
   end)%bool.

(** The mathematical notion [includes] decides: [t] is a contiguous
    part of [s]. *)
Definition substring_of (t s : string) : Prop :=
  exists pre post : string, s = String.append pre (String.append t post).

(** [`${n}`] for an integer-valued number [n]. *)
Definition number_toString (n : Z) : string :=
  NilZero.string_of_int (Z.to_int n).

End JsString.

(* ===================================================================== *)
(** ** JavaScript arrays and numbers *)
(* ===================================================================== *)

Module JsArray.

(** [Array.prototype.slice(start, end)] for integer arguments: a negative
    index counts from the end, both indices are clamped to the array,
    and an empty range gives the empty array. *)
Definition slice {A : Type} (l : list A) (start final : Z) : list A :=
  let len := Z.of_nat (length l) in
  let k := if (start <? 0)%Z then Z.max (len + start) 0 else Z.min start len in
  let e := if (final <? 0)%Z then Z.max (len + final) 0 else Z.min final len in
  let count := Z.max (e - k) 0 in
  take (Z.to_nat count) (drop (Z.to_nat k) l).

(** [Math.ceil(n / d)] for an array length [n] and a page size [d > 0].
    The quotient of two such integers never rounds across an integer in
    double precision, so the result is the exact ceiling of [n / d]. *)
Definition Math_ceil_div (n d : Z) : Z := (- ((- n) / d))%Z.

(** [array.filter((x, i) => keep x i)], the callback seeing the index;
    [i] is the index of the head of [l]. *)
Fixpoint filter_indexed_from {A : Type} (keep : A -> Z -> bool) (i : Z)
    (l : list A) : list A :=
  match l with
  | [] => []
  | x :: l' =>
      if keep x i
      then x :: filter_indexed_from keep (i + 1) l'
      else filter_indexed_from keep (i + 1) l'
  end.

Definition filter_indexed {A : Type} (keep : A -> Z -> bool) (l : list A)
    : list A :=
  filter_indexed_from keep 0 l.

(** [array.map((x, i) => f x i)] *)
Fixpoint map_indexed_from {A B : Type} (f : A -> Z -> B) (i : Z)
    (l : list A) : list B :=
  match l with
  | [] => []
  | x :: l' => f x i :: map_indexed_from f (i + 1) l'
  end.

Definition map_indexed {A B : Type} (f : A -> Z -> B) (l : list A) : list B :=
  map_indexed_from f 0 l.

End JsArray.

(* ===================================================================== *)
(** ** pages/Coverage.jsx *)
(* ===================================================================== *)

Module Coverage.
Import JsString JsArray.

(** [coveragePercentage] is a number in the mock data and the text of the
    form input after a submit. *)
Inductive coverage_value : Type :=
| CoverageNumber (n : Z)
| CoverageText (s : string).

(** A coverage-mapping record of the [mappings] array. *)
Record mapping : Type := Mapping {
  id : Z;
  filePath : string;
  testFilePath : string;
  testFunctionName : string;
  coveragePercentage : coverage_value;
  priority : string;
  lastUpdated : string;
  status : string
}.

(** The [formData] object of the add/edit form. *)
Record form : Type := Form {
  form_filePath : string;
  form_testFilePath : string;
  form_testFunctionName : string;
  form_coveragePercentage : string;
  form_priority : string;
  form_lastUpdated : string
}.

(** The [useState] cells of the component that the handlers touch. *)
Record page : Type := Page {
  mappings : list mapping;
  showForm : bool;
  editingMapping : option mapping;
  formData : form;
  searchTerm : string;
  filterType : string;
  currentPage : Z
}.

Definition itemsPerPage : Z := 10.

(** [{ ...formData, id: i, status: 'active' }] *)
Definition of_form (fd : form) (i : Z) : mapping :=
  {| id := i;
     filePath := form_filePath fd;
     testFilePath := form_testFilePath fd;
     testFunctionName := form_testFunctionName fd;
     coveragePercentage := CoverageText (form_coveragePercentage fd);
     priority := form_priority fd;
     lastUpdated := form_lastUpdated fd;
     status := "active" |}.

(** The object [resetForm] stores; [today] is
    [new Date().toISOString().split('T')[0]]. *)
Definition resetForm (today : string) : form :=
  {| form_filePath := "";
     form_testFilePath := "";
     form_testFunctionName := "";
     form_coveragePercentage := "";
     form_priority := "medium";
     form_lastUpdated := today |}.

(** The updater of the edit branch:
    [prev.map(mapping => mapping.id === editingMapping.id
               ? { ...formData, id: mapping.id, status: 'active' } : mapping)] *)
Definition update_mapping (fd : form) (editing : mapping)
    (prev : list mapping) : list mapping :=
  map (fun mapping =>
         if (id mapping =? id editing)%Z
         then of_form fd (id mapping)
         else mapping) prev.

(** [handleSubmit]; [now] is the value of [Date.now()]. *)
Definition handleSubmit (now : Z) (today : string) (st : page) : page :=
  let mappings' :=
    match editingMapping st with
    | Some editing => update_mapping (formData st) editing (mappings st)
    | None =>
        let newMapping := of_form (formData st) now in
        newMapping :: mappings st
    end in
  {| mappings := mappings';
     showForm := false;
     editingMapping := None;
     formData := resetForm today;
     searchTerm := searchTerm st;
     filterType := filterType st;
     currentPage := currentPage st |}.

Definition matchesSearch (searchTerm : string) (mapping : mapping) : bool :=
  includes (toLowerCase (filePath mapping)) (toLowerCase searchTerm)
  || includes (toLowerCase (testFilePath mapping)) (toLowerCase searchTerm)
  || includes (toLowerCase (testFunctionName mapping)) (toLowerCase searchTerm).

Definition matchesFilter (filterType : string) (mapping : mapping) : bool :=
  String.eqb filterType "all" || String.eqb (priority mapping) filterType.

Definition filteredMappings (mappings : list mapping)
    (searchTerm filterType : string) : list mapping :=
  List.filter
    (fun mapping =>
       matchesSearch searchTerm mapping && matchesFilter filterType mapping)
    mappings.

Definition totalPages {A : Type} (filtered : list A) : Z :=
  Math_ceil_div (Z.of_nat (length filtered)) itemsPerPage.

Definition paginatedMappings {A : Type} (filtered : list A)
    (currentPage : Z) : list A :=
  slice filtered ((currentPage - 1) * itemsPerPage) (currentPage * itemsPerPage).

(** [coveragePercentage.toString()] *)
Definition coverage_toString (c : coverage_value) : string :=
  match c with
  | CoverageNumber n => number_toString n
  | CoverageText s => s
  end.

(** [handleEdit] *)
Definition handleEdit (mapping : mapping) (st : page) : page :=
  {| mappings := mappings st;
     showForm := true;
     editingMapping := Some mapping;
     formData :=
       {| form_filePath := filePath mapping;
          form_testFilePath := testFilePath mapping;
          form_testFunctionName := testFunctionName mapping;
          form_coveragePercentage :=
            coverage_toString (coveragePercentage mapping);
          form_priority := priority mapping;
          form_lastUpdated := lastUpdated mapping |};
     searchTerm := searchTerm st;
     filterType := filterType st;
     currentPage := currentPage st |}.

(** [handleDelete]; [confirmed] is what [window.confirm] answers. *)
Definition handleDelete (confirmed : bool) (id' : Z) (st : page) : page :=
  if confirmed
  then {| mappings :=
            List.filter (fun mapping => negb (id mapping =? id')%Z)
                        (mappings st);
          showForm := showForm st;
          editingMapping := editingMapping st;
          formData := formData st;
          searchTerm := searchTerm st;
          filterType := filterType st;
          currentPage := currentPage st |}
  else st.

(** What a render computes from the state: the filtered list, the number
    of pages and the rows of the table. *)
Definition rendered_filtered (st : page) : list mapping :=
  filteredMappings (mappings st) (searchTerm st) (filterType st).

Definition rendered_totalPages (st : page) : Z :=
  totalPages (rendered_filtered st).

Definition rendered_rows (st : page) : list mapping :=
  paginatedMappings (rendered_filtered st) (currentPage st).

Definition setCurrentPage (update : Z -> Z) (st : page) : page :=
  {| mappings := mappings st;
     showForm := showForm st;
     editingMapping := editingMapping st;
     formData := formData st;
     searchTerm := searchTerm st;
     filterType := filterType st;
     currentPage := update (currentPage st) |}.

(** The [onClick] of Previous: [setCurrentPage(prev => Math.max(prev - 1, 1))] *)
Definition clickPrevious (st : page) : page :=
  setCurrentPage (fun prev => Z.max (prev - 1) 1) st.

(** The [onClick] of Next:
    [setCurrentPage(prev => Math.min(prev + 1, totalPages))] *)
Definition clickNext (st : page) : page :=
  setCurrentPage (fun prev => Z.min (prev + 1) (rendered_totalPages st)) st.

(** The numbered buttons,
    [Array.from({ length: totalPages }, (_, i) => i + 1)]. *)
Definition pageButtons (st : page) : list Z :=
  map (fun i => (Z.of_nat i + 1)%Z)
      (seq 0 (Z.to_nat (rendered_totalPages st))).

(** The [onClick] of a numbered button: [setCurrentPage(page)] *)
Definition clickPage (number : Z) (st : page) : page :=
  setCurrentPage (fun _ => number) st.

(** The two numbers of "Showing a to b of n results". *)
Definition showingFrom (st : page) : Z :=
  ((currentPage st - 1) * itemsPerPage + 1)%Z.

Definition showingTo (st : page) : Z :=
  Z.min (currentPage st * itemsPerPage)
        (Z.of_nat (length (rendered_filtered st))).

(** The first three records of [mockMappings]. *)
Definition mockMappings : list mapping :=
  [ {| id := 1;
       filePath := "src/components/Button.jsx";
       testFilePath := "src/components/__tests__/Button.test.jsx";
       testFunctionName := "Button component tests";
       coveragePercentage := CoverageNumber 95;
       priority := "high";
       lastUpdated := "2024-01-15";
       status := "active" |};
    {| id := 2;
       filePath := "src/utils/helpers.js";
       testFilePath := "src/utils/__tests__/helpers.test.js";
       testFunctionName := "Helper function tests";
       coveragePercentage := CoverageNumber 87;
       priority := "medium";
       lastUpdated := "2024-01-14";
       status := "active" |};
    {| id := 3;
       filePath := "src/services/api.js";
       testFilePath := "src/services/__tests__/api.test.js";
       testFunctionName := "API service tests";
       coveragePercentage := CoverageNumber 72;
       priority := "low";
       lastUpdated := "2024-01-13";
       status := "active" |} ].

End Coverage.

(* ===================================================================== *)
(** ** The Repositories page (second half of context/AnalysisContext.jsx) *)
(* ===================================================================== *)

Module Repositories.
Import JsString JsArray.

(** A repository record.  The counters and [lastCommit] are absent
    ([undefined]) on a record rebuilt from the form by an edit, hence
    optional. *)
Record repo : Type := Repo {
  id : Z;
  name : string;
  url : string;
  description : string;
  language : string;
  status : string;
  branch : string;
  lastSync : string;
  stars : option Z;
  forks : option Z;
  issues : option Z;
  pullRequests : option Z;
  coverage : option Z;
  lastCommit : option string
}.

Record form : Type := Form {
  form_name : string;
  form_url : string;
  form_description : string;
  form_language : string;
  form_status : string;
  form_branch : string;
  form_lastSync : string
}.

Record page : Type := Page {
  repositories : list repo;
  showForm : bool;
  editingRepo : option repo;
  formData : form;
  searchTerm : string;
  filterStatus : string;
  currentPage : Z
}.

Definition itemsPerPage : Z := 8.

(** [{ ...formData, id: i }] *)
Definition of_form (fd : form) (i : Z) : repo :=
  {| id := i;
     name := form_name fd;
     url := form_url fd;
     description := form_description fd;
     language := form_language fd;
     status := form_status fd;
     branch := form_branch fd;
     lastSync := form_lastSync fd;
     stars := None; forks := None; issues := None;
     pullRequests := None; coverage := None; lastCommit := None |}.

(** [{ ...formData, id: Date.now(), stars: 0, forks: 0, issues: 0,
       pullRequests: 0, coverage: 0, lastCommit: 'Just now' }] *)
Definition newRepo (fd : form) (now : Z) : repo :=
  {| id := now;
     name := form_name fd;
     url := form_url fd;
     description := form_description fd;
     language := form_language fd;
     status := form_status fd;
     branch := form_branch fd;
     lastSync := form_lastSync fd;
     stars := Some 0%Z; forks := Some 0%Z; issues := Some 0%Z;
     pullRequests := Some 0%Z; coverage := Some 0%Z;
     lastCommit := Some "Just now" |}.

Definition resetForm (today : string) : form :=
  {| form_name := "";
     form_url := "";
     form_description := "";
     form_language := "";
     form_status := "active";
     form_branch := "main";
     form_lastSync := today |}.

(** [prev.map(repo => repo.id === editingRepo.id
               ? { ...formData, id: repo.id } : repo)] *)
Definition update_repo (fd : form) (editing : repo)
    (prev : list repo) : list repo :=
  map (fun repo =>
         if (id repo =? id editing)%Z then of_form fd (id repo) else repo)
      prev.

Definition handleSubmit (now : Z) (today : string) (st : page) : page :=
  let repositories' :=
    match editingRepo st with
    | Some editing => update_repo (formData st) editing (repositories st)
    | None => newRepo (formData st) now :: repositories st
    end in
  {| repositories := repositories';
     showForm := false;
     editingRepo := None;
     formData := resetForm today;
     searchTerm := searchTerm st;
     filterStatus := filterStatus st;
     currentPage := currentPage st |}.

Definition matchesSearch (searchTerm : string) (repo : repo) : bool :=
  includes (toLowerCase (name repo)) (toLowerCase searchTerm)
  || includes (toLowerCase (description repo)) (toLowerCase searchTerm)
  || includes (toLowerCase (language repo)) (toLowerCase searchTerm).

Definition matchesFilter (filterStatus : string) (repo : repo) : bool :=
  String.eqb filterStatus "all" || String.eqb (status repo) filterStatus.

Definition filteredRepositories (repositories : list repo)
    (searchTerm filterStatus : string) : list repo :=
  List.filter
    (fun repo =>
       matchesSearch searchTerm repo && matchesFilter filterStatus repo)
    repositories.

Definition totalPages {A : Type} (filtered : list A) : Z :=
  Math_ceil_div (Z.of_nat (length filtered)) itemsPerPage.

Definition paginatedRepositories {A : Type} (filtered : list A)
    (currentPage : Z) : list A :=
  slice filtered ((currentPage - 1) * itemsPerPage) (currentPage * itemsPerPage).

(** [handleEdit] *)
Definition handleEdit (repo : repo) (st : page) : page :=
  {| repositories := repositories st;
     showForm := true;
     editingRepo := Some repo;
     formData :=
       {| form_name := name repo;
          form_url := url repo;
          form_description := description repo;
          form_language := language repo;
          form_status := status repo;
          form_branch := branch repo;
          form_lastSync := lastSync repo |};
     searchTerm := searchTerm st;
     filterStatus := filterStatus st;
     currentPage := currentPage st |}.

(** [handleDelete]; [confirmed] is what [window.confirm] answers. *)
Definition handleDelete (confirmed : bool) (id' : Z) (st : page) : page :=
  if confirmed
  then {| repositories :=
            List.filter (fun repo => negb (id repo =? id')%Z)
                        (repositories st);
          showForm := showForm st;
          editingRepo := editingRepo st;
          formData := formData st;
          searchTerm := searchTerm st;
          filterStatus := filterStatus st;
          currentPage := currentPage st |}
  else st.

(** [handleSync]; [today] is [new Date().toISOString().split('T')[0]]. *)
Definition handleSync (today : string) (id' : Z) (st : page) : page :=
  {| repositories :=
       map (fun repo =>
              if (id repo =? id')%Z
              then {| id := id repo;
                      name := name repo;
                      url := url repo;
                      description := description repo;
                      language := language repo;
                      status := status repo;
                      branch := branch repo;
                      lastSync := today;
                      stars := stars repo;
                      forks := forks repo;
                      issues := issues repo;
                      pullRequests := pullRequests repo;
                      coverage := coverage repo;
                      lastCommit := Some "Just now" |}
              else repo)
           (repositories st);
     showForm := showForm st;
     editingRepo := editingRepo st;
     formData := formData st;
     searchTerm := searchTerm st;
     filterStatus := filterStatus st;
     currentPage := currentPage st |}.

(** [getCoverageColor] on the values [coverage] takes: an integer, or
    [undefined], for which every comparison is false. *)
Definition getCoverageColor (coverage : option Z) : string :=
  match coverage with
  | Some c =>
      if (c >=? 90)%Z then "success"
      else if (c >=? 70)%Z then "warning"
      else if (c >? 0)%Z then "danger"
      else "default"
  | None => "default"
  end.

Definition rendered_filtered (st : page) : list repo :=
  filteredRepositories (repositories st) (searchTerm st) (filterStatus st).

Definition rendered_totalPages (st : page) : Z :=
  totalPages (rendered_filtered st).

Definition rendered_cards (st : page) : list repo :=
  paginatedRepositories (rendered_filtered st) (currentPage st).

Definition setCurrentPage (update : Z -> Z) (st : page) : page :=
  {| repositories := repositories st;
     showForm := showForm st;
     editingRepo := editingRepo st;
     formData := formData st;
     searchTerm := searchTerm st;
     filterStatus := filterStatus st;
     currentPage := update (currentPage st) |}.

Definition clickPrevious (st : page) : page :=
  setCurrentPage (fun prev => Z.max (prev - 1) 1) st.

Definition clickNext (st : page) : page :=
  setCurrentPage (fun prev => Z.min (prev + 1) (rendered_totalPages st)) st.

Definition pageButtons (st : page) : list Z :=
  map (fun i => (Z.of_nat i + 1)%Z)
      (seq 0 (Z.to_nat (rendered_totalPages st))).

Definition clickPage (number : Z) (st : page) : page :=
  setCurrentPage (fun _ => number) st.

Definition showingFrom (st : page) : Z :=
  ((currentPage st - 1) * itemsPerPage + 1)%Z.

Definition showingTo (st : page) : Z :=
  Z.min (currentPage st * itemsPerPage)
        (Z.of_nat (length (rendered_filtered st))).

(** Two records of [mockRepositories]: the first and the fourth. *)
Definition mockRepositories : list repo :=
  [ {| id := 1;
       name := "frontend-app";
       url := "https://github.com/company/frontend-app";
       description := "React-based frontend application with modern UI components";
       language := "JavaScript";
       status := "active";
       branch := "main";
       lastSync := "2024-01-15";
       stars := Some 45%Z; forks := Some 12%Z; issues := Some 3%Z;
       pullRequests := Some 7%Z; coverage := Some 87%Z;
       lastCommit := Some "2 hours ago" |};
    {| id := 4;
       name := "data-pipeline";
       url := "https://github.com/company/data-pipeline";
       description := "ETL pipeline for data processing and analytics";
       language := "Python";
       status := "inactive";
       branch := "main";
       lastSync := "2024-01-10";
       stars := Some 15%Z; forks := Some 3%Z; issues := Some 8%Z;
       pullRequests := Some 1%Z; coverage := Some 65%Z;
       lastCommit := Some "1 week ago" |} ].

End Repositories.

(* ===================================================================== *)
(** ** context/AnalysisContext.jsx *)
(* ===================================================================== *)

Module AnalysisContext.
Import JsString.

(** A parsed JSON value, as [response.json()] yields it. *)
#[warnings="-register-all"]
Inductive json : Type :=
| JNull
| JBool (b : bool)
| JNumber (n : Z)
| JString (s : string)
| JArray (items : list json)
| JObject (fields : list (string * json)).

(** The reducer state.  [currentAnalysis] holds [JNull] for [null];
    [error] is [None] for [null]; [stats] is the dictionary object. *)
Record state : Type := State {
  analyses : list json;
  currentAnalysis : json;
  loading : bool;
  error : option string;
  repositories : list json;
  coverageMappings : list json;
  stats : gmap string json
}.

Definition initialState : state :=
  {| analyses := [];
     currentAnalysis := JNull;
     loading := false;
     error := None;
     repositories := [];
     coverageMappings := [];
     stats := {[ "totalAnalyses" := JNumber 0;
                 "totalTimeSaved" := JNumber 0;
                 "averageRiskScore" := JNumber 0;
                 "totalTestsSelected" := JNumber 0 ]} |}.

(** The type tags that [analysisReducer] has a [case] for. *)
Definition handled_types : list string :=
  [ "SET_LOADING"; "SET_ERROR"; "CLEAR_ERROR"; "SET_ANALYSES";
    "ADD_ANALYSIS"; "SET_CURRENT_ANALYSIS"; "SET_REPOSITORIES";
    "SET_COVERAGE_MAPPINGS"; "UPDATE_STATS" ]%string.

Definition is_handled (type : string) : bool :=
  existsb (String.eqb type) handled_types.

(** An action object [{ type, payload }].  Each handled type carries the
    payload its [case] stores; [OTHER] is an action whose type tag has no
    [case], which the last argument certifies. *)
Inductive action : Type :=
| SET_LOADING (payload : bool)
| SET_ERROR (payload : string)
| CLEAR_ERROR
| SET_ANALYSES (payload : list json)
| ADD_ANALYSIS (payload : json)
| SET_CURRENT_ANALYSIS (payload : json)
| SET_REPOSITORIES (payload : list json)
| SET_COVERAGE_MAPPINGS (payload : list json)
| UPDATE_STATS (payload : gmap string json)
| OTHER (type : string) (payload : json) (unhandled : is_handled type = false).

(** [action.type] *)
Definition action_type (a : action) : string :=
  match a with
  | SET_LOADING _ => "SET_LOADING"
  | SET_ERROR _ => "SET_ERROR"
  | CLEAR_ERROR => "CLEAR_ERROR"
  | SET_ANALYSES _ => "SET_ANALYSES"
  | ADD_ANALYSIS _ => "ADD_ANALYSIS"
  | SET_CURRENT_ANALYSIS _ => "SET_CURRENT_ANALYSIS"
  | SET_REPOSITORIES _ => "SET_REPOSITORIES"
  | SET_COVERAGE_MAPPINGS _ => "SET_COVERAGE_MAPPINGS"
  | UPDATE_STATS _ => "UPDATE_STATS"
  | OTHER type _ _ => type
  end.

(** [analysisReducer]; each branch is the object spread of its [case].
    [{ ...state.stats, ...action.payload }] is the union in which the
    payload's keys win. *)
Definition analysisReducer : state -> action -> state :=
  fun state action =>
  match action with
  | SET_LOADING payload =>
      {| analyses := analyses state;
         currentAnalysis := currentAnalysis state;
         loading := payload;
         error := error state;
         repositories := repositories state;
         coverageMappings := coverageMappings state;
         stats := stats state |}
  | SET_ERROR payload =>
      {| analyses := analyses state;
         currentAnalysis := currentAnalysis state;
         loading := false;
         error := Some payload;
         repositories := repositories state;
         coverageMappings := coverageMappings state;
         stats := stats state |}
  | CLEAR_ERROR =>
      {| analyses := analyses state;
         currentAnalysis := currentAnalysis state;
         loading := loading state;
         error := None;
         repositories := repositories state;
         coverageMappings := coverageMappings state;
         stats := stats state |}
  | SET_ANALYSES payload =>
      {| analyses := payload;
         currentAnalysis := currentAnalysis state;
         loading := loading state;
         error := error state;
         repositories := repositories state;
         coverageMappings := coverageMappings state;
         stats := stats state |}
  | ADD_ANALYSIS payload =>
      {| analyses := payload :: analyses state;
         currentAnalysis := payload;
         loading := loading state;
         error := error state;
         repositories := repositories state;
         coverageMappings := coverageMappings state;
         stats := stats state |}
  | SET_CURRENT_ANALYSIS payload =>
      {| analyses := analyses state;
         currentAnalysis := payload;
         loading := loading state;
         error := error state;
         repositories := repositories state;
         coverageMappings := coverageMappings state;
         stats := stats state |}
  | SET_REPOSITORIES payload =>
      {| analyses := analyses state;
         currentAnalysis := currentAnalysis state;
         loading := loading state;
         error := error state;
         repositories := payload;
         coverageMappings := coverageMappings state;
         stats := stats state |}
  | SET_COVERAGE_MAPPINGS payload =>
      {| analyses := analyses state;
         currentAnalysis := currentAnalysis state;
         loading := loading state;
         error := error state;
         repositories := repositories state;
         coverageMappings := payload;
         stats := stats state |}
  | UPDATE_STATS payload =>
      {| analyses := analyses state;
         currentAnalysis := currentAnalysis state;
         loading := loading state;
         error := error state;
         repositories := repositories state;
         coverageMappings := coverageMappings state;
         stats := payload ∪ stats state |}
  | OTHER _ _ _ => state
  end.

(** *** The network and the effects of an async function *)

(** A thrown [Error]: only its [message] is ever read. *)
Record js_error : Type := Error { message : string }.

(** How an async computation (or a promise) settles. *)
Inductive completion (A : Type) : Type :=
| Returned (a : A)
| Thrown (e : js_error).
Arguments Returned {A} a.
Arguments Thrown {A} e.

(** The second argument of [apiCall]. *)
Record options : Type := Options {
  method : option string;
  body : option string;
  headers : option (list (string * string))
}.

Definition no_options : options :=
  {| method := None; body := None; headers := None |}.

(** What [fetch] is called with. *)
Record request : Type := Request {
  req_url : string;
  req_method : option string;
  req_body : option string;
  req_headers : list (string * string)
}.

(** A [Response] whose body parses at type [T]: [status], and how the
    promise of [response.json()] settles. *)
Record response (T : Type) : Type := Response {
  status : Z;
  json_body : completion T
}.
Arguments Response {T} status json_body.
Arguments status {T} r.
Arguments json_body {T} r.

(** [response.ok]: the status is in the range 200-299. *)
Definition ok {T : Type} (r : response T) : bool :=
  (200 <=? status r)%Z && (status r <=? 299)%Z.

(** How the promise of [fetch] settles. *)
Inductive fetch_result (T : Type) : Type :=
| Rejected (e : js_error)
| Resolved (r : response T).
Arguments Rejected {T} e.
Arguments Resolved {T} r.

(** What an async function of the provider does that can be observed. *)
Inductive event : Type :=
| Dispatched (a : action)
| Fetched (req : request)
| ConsoleError (label : string) (e : js_error).

(** The reducer state together with the history of events. *)
Record world : Type := World {
  store : state;
  trace : list event
}.

(** An async function body: it transforms the world and settles. *)
Definition Async (A : Type) : Type := world -> world * completion A.

Definition ret {A : Type} (a : A) : Async A := fun w => (w, Returned a).

Definition throw {A : Type} (e : js_error) : Async A :=
  fun w => (w, Thrown e).

Definition bind {A B : Type} (m : Async A) (k : A -> Async B) : Async B :=
  fun w =>
    match m w with
    | (w', Returned a) => k a w'
    | (w', Thrown e) => (w', Thrown e)
    end.

(** [try { m } catch (error) { handler error }] *)
Definition try_catch {A : Type} (m : Async A)
    (handler : js_error -> Async A) : Async A :=
  fun w =>
    match m w with
    | (w', Returned a) => (w', Returned a)
    | (w', Thrown e) => handler e w'
    end.

(** [try { m } finally { cleanup }]: [cleanup] always runs; the
    completion of [m] stands unless [cleanup] itself throws. *)
Definition try_finally {A : Type} (m : Async A)
    (cleanup : Async unit) : Async A :=
  fun w =>
    match m w with
    | (w', c) =>
        match cleanup w' with
        | (w'', Returned _) => (w'', c)
        | (w'', Thrown e) => (w'', Thrown e)
        end
    end.

#[global] Instance Async_ret : MRet Async := @ret.
#[global] Instance Async_bind : MBind Async :=
  fun A B k m => bind m k.

(** [dispatch(action)]: the reducer runs on the store. *)
Definition dispatch (a : action) : Async unit :=
  fun w =>
    ({| store := analysisReducer (store w) a;
        trace := trace w ++ [Dispatched a] |}, Returned tt).

(** [await fetch(url, init)]: the network decides how it settles. *)
Definition fetch {T : Type} (net : request -> fetch_result T)
    (req : request) : Async (response T) :=
  fun w =>
    let w' := {| store := store w; trace := trace w ++ [Fetched req] |} in
    match net req with
    | Rejected e => (w', Thrown e)
    | Resolved r => (w', Returned r)
    end.

(** [await response.json()] *)
Definition json_of {T : Type} (r : response T) : Async T :=
  fun w => (w, json_body r).

Definition console_error (label : string) (e : js_error) : Async unit :=
  fun w =>
    ({| store := store w; trace := trace w ++ [ConsoleError label e] |},
     Returned tt).

(** [x || fallback] on strings: the empty string is falsy. *)
Definition or_else (x fallback : string) : string :=
  if String.eqb x "" then fallback else x.

Section Provider.

(** [import.meta.env.VITE_API_BASE_URL], [None] when it is not set. *)
Variable VITE_API_BASE_URL : option string.

Definition API_BASE_URL : string :=
  match VITE_API_BASE_URL with
  | Some base => or_else base "http://localhost:8000"
  | None => "http://localhost:8000"
  end.

(** The [init] object
    [{ headers: { 'Content-Type': 'application/json', ...options.headers },
       ...options }]: a [headers] key of [options] replaces the merged
    headers. *)
Definition request_of (endpoint : string) (options : options) : request :=
  {| req_url := String.append API_BASE_URL endpoint;
     req_method := method options;
     req_body := body options;
     req_headers :=
       match headers options with
       | Some h => h
       | None => [("Content-Type", "application/json")]%string
       end |}.

Definition apiCall {T : Type} (net : request -> fetch_result T)
    (endpoint : string) (options : options) : Async T :=
  try_finally
    (try_catch
       (dispatch (SET_LOADING true) ;;
        dispatch CLEAR_ERROR ;;
        response ← fetch net (request_of endpoint options);
        if negb (ok response)
        then throw (Error (String.append "HTTP error! status: "
                             (number_toString (status response))))
        else
          data ← json_of response;
          ret data)
       (fun error =>
          let errorMessage := or_else (message error) "An error occurred" in
          dispatch (SET_ERROR errorMessage) ;;
          throw error))
    (dispatch (SET_LOADING false)).

Definition getAnalyses (net : request -> fetch_result (list json))
    : Async (list json) :=
  try_catch
    (result ← apiCall net "/api/v1/analyses" no_options;
     dispatch (SET_ANALYSES result) ;;
     ret result)
    (fun error =>
       console_error "Failed to fetch analyses:" error ;;
       throw error).

Definition getRepositories (net : request -> fetch_result (list json))
    : Async (list json) :=
  try_catch
    (result ← apiCall net "/api/v1/repositories" no_options;
     dispatch (SET_REPOSITORIES result) ;;
     ret result)
    (fun error =>
       console_error "Failed to fetch repositories:" error ;;
       throw error).

Definition getCoverageMappings (net : request -> fetch_result (list json))
    : Async (list json) :=
  try_catch
    (result ← apiCall net "/api/v1/coverage-mappings" no_options;
     dispatch (SET_COVERAGE_MAPPINGS result) ;;
     ret result)
    (fun error =>
       console_error "Failed to fetch coverage mappings:" error ;;
       throw error).

Definition getMetrics (net : request -> fetch_result (gmap string json))
    : Async (gmap string json) :=
  try_catch
    (result ← apiCall net "/api/v1/metrics" no_options;
     dispatch (UPDATE_STATS result) ;;
     ret result)
    (fun error =>
       console_error "Failed to fetch metrics:" error ;;
       throw error).

(** [clearError: () => dispatch({ type: 'CLEAR_ERROR' })] *)
Definition clearError : Async unit := dispatch CLEAR_ERROR.

End Provider.

Section ProviderRequests.

Variable VITE_API_BASE_URL : option string.

(** [JSON.stringify], the platform's serializer, on the request objects. *)
Variable JSON_stringify : json -> string.

(** [{ method: 'POST', body: JSON.stringify(data) }] *)
Definition post_options (data : json) : options :=
  {| method := Some "POST"%string;
     body := Some (JSON_stringify data);
     headers := None |}.

Definition analyzeImpact (net : request -> fetch_result json)
    (analysisRequest : json) : Async json :=
  try_catch
    (result ← apiCall VITE_API_BASE_URL net "/api/v1/analyze"
                (post_options analysisRequest);
     dispatch (ADD_ANALYSIS result) ;;
     ret result)
    (fun error =>
       console_error "Analysis failed:" error ;;
       throw error).

(** [createCoverageMapping]: the POST, then the refresh through
    [getCoverageMappings]; [net] answers the POST and [refresh] the GET
    that follows it. *)
Definition createCoverageMapping (net : request -> fetch_result json)
    (refresh : request -> fetch_result (list json)) (mappingData : json)
    : Async json :=
  try_catch
    (result ← apiCall VITE_API_BASE_URL net "/api/v1/coverage-mappings"
                (post_options mappingData);
     getCoverageMappings VITE_API_BASE_URL refresh ;;
     ret result)
    (fun error =>
       console_error "Failed to create coverage mapping:" error ;;
       throw error).

Definition getHealthStatus (net : request -> fetch_result json)
    : Async json :=
  try_catch
    (result ← apiCall VITE_API_BASE_URL net "/api/v1/health" no_options;
     ret result)
    (fun error =>
       console_error "Health check failed:" error ;;
       throw error).

(** [setCurrentAnalysis: (analysis) =>
       dispatch({ type: 'SET_CURRENT_ANALYSIS', payload: analysis })] *)
Definition setCurrentAnalysis (analysis : json) : Async unit :=
  dispatch (SET_CURRENT_ANALYSIS analysis).

End ProviderRequests.

(** The requests in a history, in the order they were issued. *)
Fixpoint requests_of (t : list event) : list request :=
  match t with
  | [] => []
  | Fetched req :: t' => req :: requests_of t'
  | _ :: t' => requests_of t'
  end.

(** The errors written to the console in a history, with their labels. *)
Fixpoint logged_of (t : list event) : list (string * js_error) :=
  match t with
  | [] => []
  | ConsoleError label e :: t' => (label, e) :: logged_of t'
  | _ :: t' => logged_of t'
  end.

(** Running an async function from a store, with an empty history. *)
Definition run {A : Type} (m : Async A) (s : state) : world * completion A :=
  m {| store := s; trace := [] |}.

Definition state_after {A : Type} (m : Async A) (s : state) : state :=
  store (fst (run m s)).

Definition trace_of {A : Type} (m : Async A) (s : state) : list event :=
  trace (fst (run m s)).

Definition result_of {A : Type} (m : Async A) (s : state) : completion A :=
  snd (run m s).

End AnalysisContext.

(* ===================================================================== *)
(** ** components/Navbar.jsx: the error banner *)
(* ===================================================================== *)

Module Navbar.
Import AnalysisContext.

(** The banner element: the text of its paragraph and what its button's
    [onClick] runs. *)
Record banner : Type := Banner {
  banner_text : string;
  banner_onClick : Async unit
}.

(** [{error && ( ... {error} ... onClick={clearError} ... )}]: nothing is
    rendered for [null] and for the empty string, both falsy. *)
Definition errorBanner (error : option string) : option banner :=
  match error with
  | None => None
  | Some text =>
      if String.eqb text "" then None
      else Some {| banner_text := text; banner_onClick := clearError |}
  end.

End Navbar.

(* ===================================================================== *)
(** ** The Analysis page (second half of pages/Dashboard.jsx): the list of
       changed files of the form *)
(* ===================================================================== *)

Module Analysis.
Import JsArray.

(** A changed-file object; [{ ...file, [field]: value }] may give it any
    key, so it is a dictionary. *)
Definition new_file : gmap string string :=
  {[ "path"%string := ""%string; "type"%string := "source"%string ]}.

(** The [formData] object of the form. *)
Record form : Type := Form {
  repository : string;
  branch : string;
  pullRequestId : string;
  changedFiles : list (gmap string string)
}.

Definition initial_form : form :=
  {| repository := "";
     branch := "main";
     pullRequestId := "";
     changedFiles := [new_file] |}.

Definition addChangedFile (prev : form) : form :=
  {| repository := repository prev;
     branch := branch prev;
     pullRequestId := pullRequestId prev;
     changedFiles := changedFiles prev ++ [new_file] |}.

Definition removeChangedFile (index : Z) (prev : form) : form :=
  {| repository := repository prev;
     branch := branch prev;
     pullRequestId := pullRequestId prev;
     changedFiles :=
       filter_indexed (fun _ i => negb (i =? index)%Z) (changedFiles prev) |}.

Definition updateChangedFile (index : Z) (field value : string)
    (prev : form) : form :=
  {| repository := repository prev;
     branch := branch prev;
     pullRequestId := pullRequestId prev;
     changedFiles :=
       map_indexed
         (fun file i =>
            if (i =? index)%Z then <[field := value]> file else file)
         (changedFiles prev) |}.

(** The remove button of a row is rendered only while
    [formData.changedFiles.length > 1]. *)
Definition remove_button_shown (prev : form) : bool :=
  (1 <? Z.of_nat (length (changedFiles prev)))%Z.

(** What the user can do to the rows: press Add File, press the remove
    button of row [index] (there is one per rendered row, and only while
    it is shown), or change the select or the text input of row [index]. *)
Inductive row_event : Type :=
| PressAdd
| PressRemove (index : nat)
| ChangeInput (index : nat) (field value : string).

Definition handle_row_event (prev : form) (ev : row_event) : form :=
  match ev with
  | PressAdd => addChangedFile prev
  | PressRemove index =>
      if remove_button_shown prev && (index <? length (changedFiles prev))%nat
      then removeChangedFile (Z.of_nat index) prev
      else prev
  | ChangeInput index field value =>
      updateChangedFile (Z.of_nat index) field value prev
  end.

End Analysis.

(* ===================================================================== *)
(** ** pages/Settings.jsx: the four settings objects *)
(* ===================================================================== *)

Module Settings.

(** A value of a settings field: text, a switch, or a number.  (The
    [NaN] that [parseInt] gives for an empty input is outside this type;
    [handleInputChange] never inspects the value it stores.) *)
Inductive value : Type :=
| Text (s : string)
| Switch (b : bool)
| Number (n : Z).

(** The four [useState] objects [handleInputChange] writes to. *)
Record settings : Type := SettingsState {
  profileData : gmap string value;
  notificationSettings : gmap string value;
  apiSettings : gmap string value;
  securitySettings : gmap string value
}.

(** [handleInputChange]: [{ ...prev, [field]: value }] on the object of
    the section, nothing for any other section name. *)
Definition handleInputChange (section field : string) (value : value)
    (st : settings) : settings :=
  if String.eqb section "profile" then
    {| profileData := <[field := value]> (profileData st);
       notificationSettings := notificationSettings st;
       apiSettings := apiSettings st;
       securitySettings := securitySettings st |}
  else if String.eqb section "notifications" then
    {| profileData := profileData st;
       notificationSettings := <[field := value]> (notificationSettings st);
       apiSettings := apiSettings st;
       securitySettings := securitySettings st |}
  else if String.eqb section "api" then
    {| profileData := profileData st;
       notificationSettings := notificationSettings st;
       apiSettings := <[field := value]> (apiSettings st);
       securitySettings := securitySettings st |}
  else if String.eqb section "security" then
    {| profileData := profileData st;
       notificationSettings := notificationSettings st;
       apiSettings := apiSettings st;
       securitySettings := <[field := value]> (securitySettings st) |}
  else st.

(** The object of a section, [None] for a name that is no section. *)
Definition section_of (section : string) (st : settings)
    : option (gmap string value) :=
  if String.eqb section "profile" then Some (profileData st)
  else if String.eqb section "notifications" then Some (notificationSettings st)
  else if String.eqb section "api" then Some (apiSettings st)
  else if String.eqb section "security" then Some (securitySettings st)
  else None.

End Settings.

(* ===================================================================== *)
(** ** Vocabulary of the statements *)
(* ===================================================================== *)

(** The search term occurs, ignoring case, in one of the given fields. *)
Definition contains_term (term : string) (fields : list string) : Prop :=
  exists field, In field fields
    /\ JsString.substring_of (JsString.toLowerCase term)
                             (JsString.toLowerCase field).

(** The fields each page searches. *)
Definition searched_mapping (m : Coverage.mapping) : list string :=
  [Coverage.filePath m; Coverage.testFilePath m; Coverage.testFunctionName m].

Definition searched_repo (r : Repositories.repo) : list string :=
  [Repositories.name r; Repositories.description r; Repositories.language r].

(** The page numbers of the pagination bar,
    [Array.from({ length: totalPages }, (_, i) => i + 1)]. *)
Definition pageNumbers (totalPages : Z) : list Z :=
  map (fun i => (Z.of_nat i + 1)%Z) (seq 0 (Z.to_nat totalPages)).

(** The data fields of the reducer state agree. *)
Definition same_data (s s' : AnalysisContext.state) : Prop :=
  AnalysisContext.analyses s' = AnalysisContext.analyses s
  /\ AnalysisContext.currentAnalysis s' = AnalysisContext.currentAnalysis s
  /\ AnalysisContext.repositories s' = AnalysisContext.repositories s
  /\ AnalysisContext.coverageMappings s' = AnalysisContext.coverageMappings s
  /\ AnalysisContext.stats s' = AnalysisContext.stats s.

(** The store after the dispatches of a failed [apiCall], in their order. *)
Definition failed_store (s : AnalysisContext.state)
    (e : AnalysisContext.js_error) : AnalysisContext.state :=
  fold_left AnalysisContext.analysisReducer
    [ AnalysisContext.SET_LOADING true;
      AnalysisContext.CLEAR_ERROR;
      AnalysisContext.SET_ERROR
        (AnalysisContext.or_else (AnalysisContext.message e)
           "An error occurred");
      AnalysisContext.SET_LOADING false ]
    s.

(** The store after the dispatches of a successful [apiCall]. *)
Definition succeeded_store (s : AnalysisContext.state)
    : AnalysisContext.state :=
  fold_left AnalysisContext.analysisReducer
    [ AnalysisContext.SET_LOADING true;
      AnalysisContext.CLEAR_ERROR;
      AnalysisContext.SET_LOADING false ]
    s.

(** The three ways a request fails, with the error of each: [fetch]
    rejects, the response is not ok, or its body does not parse.  [None]
    when the request delivers a parsed body. *)
Definition failure {T : Type} (o : AnalysisContext.fetch_result T)
    : option AnalysisContext.js_error :=
  match o with
  | AnalysisContext.Rejected e => Some e
  | AnalysisContext.Resolved r =>
      if AnalysisContext.ok r
      then match AnalysisContext.json_body r with
           | AnalysisContext.Thrown e => Some e
           | AnalysisContext.Returned _ => None
           end
      else Some (AnalysisContext.Error
                   (String.append "HTTP error! status: "
                      (JsString.number_toString (AnalysisContext.status r))))
  end.

(** The request of an [apiCall] fails. *)
Definition request_fails {T : Type}
    (net : AnalysisContext.request -> AnalysisContext.fetch_result T)
    (req : AnalysisContext.request) : Prop :=
  failure (net req) <> None.

(* ===================================================================== *)
(** ** Strings: [includes] decides the substring relation *)
(* ===================================================================== *)

Section StringFacts.
Import JsString.

Lemma startsWith_spec (s t : string) :
  startsWith s t = true <-> exists post, s = String.append t post.
Proof.
  revert s; induction t as [|b t IH]; intros s; simpl.
  - split; [intros _; exists s; reflexivity | destruct s; reflexivity].
  - destruct s as [|a s]; simpl.
    + split; [discriminate | intros [post H]; discriminate].
    + rewrite andb_true_iff, Ascii.eqb_eq, IH. split.
      * intros [-> [post ->]]. exists post. reflexivity.
      * intros [post H]. injection H as -> ->. split; [reflexivity | eauto].
Qed.

Lemma includes_spec (s t : string) :
  includes s t = true <-> substring_of t s.
Proof.
  unfold substring_of. induction s as [|a s IH]; cbn [includes].
  - rewrite orb_false_r, startsWith_spec. split.
    + intros [post H]. exists EmptyString, post. exact H.
    + intros [pre [post H]]. destruct pre; simpl in H; [eauto | discriminate].
  - rewrite orb_true_iff, IH, startsWith_spec. split.
    + intros [[post H] | [pre [post H]]].
      * exists EmptyString, post. exact H.
      * exists (String a pre), post. simpl. rewrite H. reflexivity.
    + intros [pre [post H]]. destruct pre as [|c pre]; cbn [String.append] in H.
      * left. eauto.
      * right. injection H as _ H. eauto.
Qed.

Lemma toLowerCase_idempotent (s : string) :
  toLowerCase (toLowerCase s) = toLowerCase s.
Proof.
  induction s as [|c s IH]; simpl; [reflexivity|]. rewrite IH. f_equal.
  unfold lower_char.
  destruct ((65 <=? N_of_ascii c)%N && (N_of_ascii c <=? 90)%N) eqn:E;
    [|rewrite E; reflexivity].
  apply andb_true_iff in E as [E1 E2].
  apply N.leb_le in E1, E2.
  rewrite N_ascii_embedding by lia.
  destruct (65 <=? N_of_ascii c + 32)%N eqn:F1; simpl; [|reflexivity].
  destruct (N_of_ascii c + 32 <=? 90)%N eqn:F2; [|reflexivity].
  apply N.leb_le in F2. lia.
Qed.

End StringFacts.

Example toLowerCase_ex :
  JsString.toLowerCase "Button.JSX"%string = "button.jsx"%string.
Proof. reflexivity. Qed.

Example includes_ex :
  JsString.includes "src/utils/helpers.js" "utils" = true
  /\ JsString.includes "src/utils/helpers.js" "Utils" = false
  /\ JsString.includes "abc" "" = true.
Proof. repeat split. Qed.

Example number_toString_ex :
  JsString.number_toString 404 = "404"%string.
Proof. reflexivity. Qed.

(* ===================================================================== *)
(** ** Search and select filter *)
(* ===================================================================== *)

Section Filtering.
Import JsString.

Lemma mapping_matchesSearch_spec (term : string) (m : Coverage.mapping) :
  Coverage.matchesSearch term m = true
  <-> contains_term term (searched_mapping m).
Proof.
  unfold Coverage.matchesSearch, contains_term, searched_mapping.
  rewrite !orb_true_iff, !includes_spec. split.
  - intros [[H | H] | H]; eexists; (split; [|exact H]); simpl; auto.
  - intros [f [[<- | [<- | [<- | []]]] H]]; auto.
Qed.

Lemma repo_matchesSearch_spec (term : string) (r : Repositories.repo) :
  Repositories.matchesSearch term r = true
  <-> contains_term term (searched_repo r).
Proof.
  unfold Repositories.matchesSearch, contains_term, searched_repo.
  rewrite !orb_true_iff, !includes_spec. split.
  - intros [[H | H] | H]; eexists; (split; [|exact H]); simpl; auto.
  - intros [f [[<- | [<- | [<- | []]]] H]]; auto.
Qed.

Lemma matchesFilter_spec (selected field : string) :
  (String.eqb selected "all" || String.eqb field selected = true)
  <-> (selected = "all" \/ field = selected).
Proof. rewrite orb_true_iff, !String.eqb_eq. reflexivity. Qed.

Lemma In_filteredMappings (mappings : list Coverage.mapping)
    (term selected : string) (m : Coverage.mapping) :
  In m (Coverage.filteredMappings mappings term selected)
  <-> In m mappings
      /\ contains_term term (searched_mapping m)
      /\ (selected = "all" \/ Coverage.priority m = selected).
Proof.
  unfold Coverage.filteredMappings, Coverage.matchesFilter.
  rewrite List.filter_In, andb_true_iff, mapping_matchesSearch_spec,
    matchesFilter_spec. reflexivity.
Qed.

Lemma In_filteredRepositories (repositories : list Repositories.repo)
    (term selected : string) (r : Repositories.repo) :
  In r (Repositories.filteredRepositories repositories term selected)
  <-> In r repositories
      /\ contains_term term (searched_repo r)
      /\ (selected = "all" \/ Repositories.status r = selected).
Proof.
  unfold Repositories.filteredRepositories, Repositories.matchesFilter.
  rewrite List.filter_In, andb_true_iff, repo_matchesSearch_spec,
    matchesFilter_spec. reflexivity.
Qed.

End Filtering.

(** C1 (as amended).  A record is displayed exactly when it is a record of
    the list, the lowercased search term is a substring of one of its
    lowercased searched fields, and the select filter lets it through (the
    filter is "all" or equals the record's priority, resp. status).  In
    particular every displayed record contains the term, and with the
    filter at "all" no record containing the term is dropped. *)
Theorem filtered_iff_search_and_filter :
  (forall (mappings : list Coverage.mapping) (term selected : string)
          (m : Coverage.mapping),
      In m (Coverage.filteredMappings mappings term selected)
      <-> In m mappings
          /\ contains_term term (searched_mapping m)
          /\ (selected = "all" \/ Coverage.priority m = selected))
  /\
  (forall (repositories : list Repositories.repo) (term selected : string)
          (r : Repositories.repo),
      In r (Repositories.filteredRepositories repositories term selected)
      <-> In r repositories
          /\ contains_term term (searched_repo r)
          /\ (selected = "all" \/ Repositories.status r = selected)).
Proof.
  split; intros l term selected x.
  - apply In_filteredMappings.
  - apply In_filteredRepositories.
Qed.

(** C1 as stated fails: with the priority filter at "high", the "low"
    record of [src/services/api.js] is a record of the list and contains
    the term "API" ignoring case, yet it is not displayed. *)
Lemma search_alone_does_not_decide_display :
  let api :=
    {| Coverage.id := 3;
       Coverage.filePath := "src/services/api.js";
       Coverage.testFilePath := "src/services/__tests__/api.test.js";
       Coverage.testFunctionName := "API service tests";
       Coverage.coveragePercentage := Coverage.CoverageNumber 72;
       Coverage.priority := "low";
       Coverage.lastUpdated := "2024-01-13";
       Coverage.status := "active" |} in
  ~ (In api (Coverage.filteredMappings Coverage.mockMappings "API" "high")
     <-> In api Coverage.mockMappings
         /\ contains_term "API" (searched_mapping api)).
Proof.
  intros api [_ H].
  assert (Hin : In api (Coverage.filteredMappings Coverage.mockMappings "API" "high")).
  { apply H. split.
    - right. right. left. reflexivity.
    - exists "src/services/api.js"%string. split; [left; reflexivity|].
      apply includes_spec. reflexivity. }
  vm_compute in Hin. exact Hin.
Qed.

(** C2.  With a filter value other than "all", every displayed record is a
    record of the input list and its priority (Coverage), resp. status
    (Repositories), equals the selected value. *)
Theorem selected_value_filters_subset (selected : string) :
  selected <> "all"%string ->
  (forall (mappings : list Coverage.mapping) (term : string)
          (m : Coverage.mapping),
      In m (Coverage.filteredMappings mappings term selected) ->
      In m mappings /\ Coverage.priority m = selected)
  /\
  (forall (repositories : list Repositories.repo) (term : string)
          (r : Repositories.repo),
      In r (Repositories.filteredRepositories repositories term selected) ->
      In r repositories /\ Repositories.status r = selected).
Proof.
  intros Hsel.
  split; intros l term x Hin.
  - apply In_filteredMappings in Hin as (Hl & _ & [Hall | Heq]);
      [contradiction | auto].
  - apply In_filteredRepositories in Hin as (Hl & _ & [Hall | Heq]);
      [contradiction | auto].
Qed.

Lemma selected_value_filters_subset_witness :
  "inactive"%string <> "all"%string
  /\ (forall r,
        In r (Repositories.filteredRepositories
                Repositories.mockRepositories "" "inactive") ->
        In r Repositories.mockRepositories
        /\ Repositories.status r = "inactive"%string).
Proof.
  assert (H : "inactive"%string <> "all"%string) by discriminate.
  split; [exact H|].
  intros r. apply (selected_value_filters_subset "inactive" H).
Defined.

(* ===================================================================== *)
(** ** Pagination *)
(* ===================================================================== *)

Section Pagination.
Import JsArray.
Context {A : Type}.
Variable d : Z.
Hypothesis d_pos : (0 < d)%Z.

Local Open Scope Z_scope.

(** [Math.ceil(n / d)] is the least [t] with [n <= t * d]. *)
Lemma Math_ceil_div_bounds (n : Z) :
  (Math_ceil_div n d - 1) * d < n <= Math_ceil_div n d * d.
Proof.
  unfold Math_ceil_div.
  pose proof (Z.div_mod (- n) d) as E.
  pose proof (Z.mod_pos_bound (- n) d d_pos) as B.
  nia.
Qed.

Lemma Math_ceil_div_nonneg (n : Z) : 0 <= n -> 0 <= Math_ceil_div n d.
Proof. pose proof (Math_ceil_div_bounds n). nia. Qed.

(** For a page number from 1 on, the slice is the page-size prefix of
    what is left after the earlier pages. *)
Lemma slice_page (l : list A) (p : Z) :
  1 <= p ->
  slice l ((p - 1) * d) (p * d)
  = take (Z.to_nat d) (drop (Z.to_nat ((p - 1) * d)) l).
Proof.
  intros Hp. unfold slice.
  assert (H0 : 0 <= (p - 1) * d) by nia.
  assert (H1 : 0 <= p * d) by nia.
  assert (H2 : p * d = (p - 1) * d + d) by ring.
  destruct (Z.ltb_spec ((p - 1) * d) 0) as [|_]; [lia|].
  destruct (Z.ltb_spec (p * d) 0) as [|_]; [lia|].
  set (n := Z.of_nat (length l)).
  destruct (Z.le_gt_cases n ((p - 1) * d)) as [Hge | Hlt].
  - rewrite !drop_ge by (subst n; lia). rewrite !take_nil. reflexivity.
  - replace (Z.min ((p - 1) * d) n) with ((p - 1) * d) by lia.
    destruct (Z.le_gt_cases (p * d) n) as [Hfull | Hlast].
    + f_equal. lia.
    + rewrite !take_ge; [reflexivity | |];
        rewrite length_drop; subst n; lia.
Qed.

Lemma length_slice_page (l : list A) (p : Z) :
  1 <= p ->
  Z.of_nat (length (slice l ((p - 1) * d) (p * d)))
  = Z.max 0 (Z.min d (Z.of_nat (length l) - (p - 1) * d)).
Proof.
  intros Hp. rewrite slice_page by exact Hp.
  rewrite length_take, length_drop.
  assert (H0 : 0 <= (p - 1) * d) by nia.
  lia.
Qed.

(** The pages before page [m + 1], in order, make up the first
    [m * d] records. *)
Lemma concat_pages_take (l : list A) (m : nat) :
  concat (map (fun p => slice l ((p - 1) * d) (p * d))
              (map (fun i => Z.of_nat i + 1) (seq 0 m)))
  = take (m * Z.to_nat d) l.
Proof.
  induction m as [|m IH].
  - reflexivity.
  - rewrite seq_S, !map_app, concat_app, IH. simpl.
    rewrite app_nil_r, slice_page by lia.
    replace (Z.to_nat ((Z.of_nat m + 1 - 1) * d))
      with (m * Z.to_nat d)%nat by nia.
    rewrite take_take_drop. f_equal. lia.
Qed.

Lemma concat_all_pages (l : list A) :
  concat (map (fun p => slice l ((p - 1) * d) (p * d))
              (pageNumbers (Math_ceil_div (Z.of_nat (length l)) d)))
  = l.
Proof.
  unfold pageNumbers. rewrite concat_pages_take.
  apply take_ge.
  pose proof (Math_ceil_div_bounds (Z.of_nat (length l))).
  pose proof (Math_ceil_div_nonneg (Z.of_nat (length l))).
  nia.
Qed.

Lemma slice_beyond_last_page (l : list A) (p : Z) :
  Math_ceil_div (Z.of_nat (length l)) d < p ->
  slice l ((p - 1) * d) (p * d) = [].
Proof.
  intros Hp.
  pose proof (Math_ceil_div_bounds (Z.of_nat (length l))).
  pose proof (Math_ceil_div_nonneg (Z.of_nat (length l))).
  rewrite slice_page by lia.
  rewrite drop_ge by nia. apply take_nil.
Qed.

Lemma page_size_and_remainder (l : list A) (p : Z) :
  let n := Z.of_nat (length l) in
  let t := Math_ceil_div n d in
  1 <= p <= t ->
  Z.of_nat (length (slice l ((p - 1) * d) (p * d))) <= d
  /\ (p = t ->
      Z.of_nat (length (slice l ((p - 1) * d) (p * d))) = n - (t - 1) * d).
Proof.
  intros n t Hp.
  pose proof (Math_ceil_div_bounds n) as B. fold t in B.
  rewrite length_slice_page by lia. fold n.
  split; [lia|]. intros ->. lia.
Qed.

End Pagination.

(** C3.  For a page number between 1 and [totalPages], the displayed slice
    has at most [itemsPerPage] records (10 in Coverage, 8 in Repositories),
    and on the last page it has exactly the remainder
    [n - (totalPages - 1) * itemsPerPage]. *)
Theorem page_holds_at_most_page_size_last_page_remainder :
  (Coverage.itemsPerPage = 10%Z /\ Repositories.itemsPerPage = 8%Z)
  /\
  (forall (filtered : list Coverage.mapping) (p : Z),
      (1 <= p <= Coverage.totalPages filtered)%Z ->
      (Z.of_nat (length (Coverage.paginatedMappings filtered p))
       <= Coverage.itemsPerPage)%Z
      /\ (p = Coverage.totalPages filtered ->
          Z.of_nat (length (Coverage.paginatedMappings filtered p))
          = (Z.of_nat (length filtered)
             - (Coverage.totalPages filtered - 1) * Coverage.itemsPerPage)%Z))
  /\
  (forall (filtered : list Repositories.repo) (p : Z),
      (1 <= p <= Repositories.totalPages filtered)%Z ->
      (Z.of_nat (length (Repositories.paginatedRepositories filtered p))
       <= Repositories.itemsPerPage)%Z
      /\ (p = Repositories.totalPages filtered ->
          Z.of_nat (length (Repositories.paginatedRepositories filtered p))
          = (Z.of_nat (length filtered)
             - (Repositories.totalPages filtered - 1)
               * Repositories.itemsPerPage)%Z)).
Proof.
  split; [split; reflexivity|].
  split; intros filtered p Hp.
  - apply (page_size_and_remainder Coverage.itemsPerPage eq_refl filtered p Hp).
  - apply (page_size_and_remainder Repositories.itemsPerPage eq_refl
             filtered p Hp).
Qed.

Lemma page_holds_at_most_page_size_last_page_remainder_witness :
  (1 <= 1 <= Coverage.totalPages Coverage.mockMappings)%Z
  /\ (Z.of_nat (length (Coverage.paginatedMappings Coverage.mockMappings 1))
      <= 10)%Z.
Proof.
  assert (H : (1 <= 1 <= Coverage.totalPages Coverage.mockMappings)%Z)
    by (vm_compute; split; discriminate).
  split; [exact H|].
  exact (proj1 (proj1 (proj2 page_holds_at_most_page_size_last_page_remainder)
                  Coverage.mockMappings 1%Z H)).
Defined.

(** C10.  The slices of pages 1, 2, ..., [totalPages], concatenated in page
    order, are exactly the filtered list; the slice of any page number
    beyond [totalPages] is empty. *)
Theorem page_slices_partition_filtered_list :
  (forall filtered : list Coverage.mapping,
      concat (map (Coverage.paginatedMappings filtered)
                  (pageNumbers (Coverage.totalPages filtered)))
      = filtered
      /\ forall p : Z,
           (Coverage.totalPages filtered < p)%Z ->
           Coverage.paginatedMappings filtered p = [])
  /\
  (forall filtered : list Repositories.repo,
      concat (map (Repositories.paginatedRepositories filtered)
                  (pageNumbers (Repositories.totalPages filtered)))
      = filtered
      /\ forall p : Z,
           (Repositories.totalPages filtered < p)%Z ->
           Repositories.paginatedRepositories filtered p = []).
Proof.
  split; intros filtered; split.
  - apply (concat_all_pages 10 ltac:(lia) filtered).
  - apply (slice_beyond_last_page 10 ltac:(lia) filtered).
  - apply (concat_all_pages 8 ltac:(lia) filtered).
  - apply (slice_beyond_last_page 8 ltac:(lia) filtered).
Qed.

Lemma page_slices_partition_filtered_list_witness :
  (Repositories.totalPages Repositories.mockRepositories < 2)%Z
  /\ Repositories.paginatedRepositories Repositories.mockRepositories 2 = [].
Proof.
  assert (H : (Repositories.totalPages Repositories.mockRepositories < 2)%Z)
    by reflexivity.
  split; [exact H|].
  exact (proj2 (proj2 page_slices_partition_filtered_list
                  Repositories.mockRepositories) 2%Z H).
Defined.

Example pagination_ex :
  let l := seq 0 23 in
  Coverage.totalPages l = 3%Z
  /\ Coverage.paginatedMappings l 1 = seq 0 10
  /\ Coverage.paginatedMappings l 3 = [20; 21; 22]
  /\ Coverage.paginatedMappings l 4 = []
  /\ Repositories.totalPages l = 3%Z
  /\ Repositories.paginatedRepositories l 3 = seq 16 7.
Proof. repeat split. Qed.

(* ===================================================================== *)
(** ** Submitting the add/edit form *)
(* ===================================================================== *)

Section Submit.

(** A [map] keeps positions: what sits at index [i] afterwards is the
    image of what sat there before. *)
Lemma lookup_map {X Y : Type} (f : X -> Y) (l : list X) (i : nat) :
  map f l !! i = f <$> (l !! i).
Proof. change (map f l) with (f <$> l). apply list_lookup_fmap. Qed.

Lemma update_mapping_ids fd editing prev :
  map Coverage.id (Coverage.update_mapping fd editing prev)
  = map Coverage.id prev.
Proof.
  unfold Coverage.update_mapping. rewrite map_map. apply map_ext.
  intros m. destruct (Coverage.id m =? Coverage.id editing)%Z; reflexivity.
Qed.

Lemma update_repo_ids fd editing prev :
  map Repositories.id (Repositories.update_repo fd editing prev)
  = map Repositories.id prev.
Proof.
  unfold Repositories.update_repo. rewrite map_map. apply map_ext.
  intros r. destruct (Repositories.id r =? Repositories.id editing)%Z;
    reflexivity.
Qed.

End Submit.

(** C4.  [handleSubmit] in add mode (no editing target) prepends the new
    record, so the list is one longer; in edit mode (editing target set)
    the list keeps its length and the ids at every position, every record
    whose id is the target's id is replaced where it stands by the form's
    record under that same id, and every other record is untouched. *)
Theorem handleSubmit_adds_one_or_replaces_in_place :
  (forall (now : Z) (today : string) (st : Coverage.page),
      Coverage.editingMapping st = None ->
      Coverage.mappings (Coverage.handleSubmit now today st)
      = Coverage.of_form (Coverage.formData st) now :: Coverage.mappings st
      /\ length (Coverage.mappings (Coverage.handleSubmit now today st))
         = S (length (Coverage.mappings st)))
  /\
  (forall (now : Z) (today : string) (st : Coverage.page)
          (editing : Coverage.mapping),
      Coverage.editingMapping st = Some editing ->
      let after := Coverage.mappings (Coverage.handleSubmit now today st) in
      length after = length (Coverage.mappings st)
      /\ map Coverage.id after = map Coverage.id (Coverage.mappings st)
      /\ forall (i : nat) (m : Coverage.mapping),
           Coverage.mappings st !! i = Some m ->
           (Coverage.id m = Coverage.id editing ->
            after !! i
            = Some (Coverage.of_form (Coverage.formData st) (Coverage.id m)))
           /\ (Coverage.id m <> Coverage.id editing -> after !! i = Some m))
  /\
  (forall (now : Z) (today : string) (st : Repositories.page),
      Repositories.editingRepo st = None ->
      Repositories.repositories (Repositories.handleSubmit now today st)
      = Repositories.newRepo (Repositories.formData st) now
        :: Repositories.repositories st
      /\ length (Repositories.repositories
                   (Repositories.handleSubmit now today st))
         = S (length (Repositories.repositories st)))
  /\
  (forall (now : Z) (today : string) (st : Repositories.page)
          (editing : Repositories.repo),
      Repositories.editingRepo st = Some editing ->
      let after :=
        Repositories.repositories (Repositories.handleSubmit now today st) in
      length after = length (Repositories.repositories st)
      /\ map Repositories.id after
         = map Repositories.id (Repositories.repositories st)
      /\ forall (i : nat) (r : Repositories.repo),
           Repositories.repositories st !! i = Some r ->
           (Repositories.id r = Repositories.id editing ->
            after !! i
            = Some (Repositories.of_form (Repositories.formData st)
                      (Repositories.id r)))
           /\ (Repositories.id r <> Repositories.id editing ->
               after !! i = Some r)).
Proof.
  repeat apply conj.
  - intros now today st H. simpl. rewrite H. auto.
  - intros now today st editing H after. subst after. simpl. rewrite H.
    repeat apply conj.
    + apply length_map.
    + apply update_mapping_ids.
    + intros i m Hi. unfold Coverage.update_mapping.
      rewrite lookup_map, Hi. simpl.
      split; intros Hid.
      * apply Z.eqb_eq in Hid. rewrite Hid. reflexivity.
      * apply Z.eqb_neq in Hid. rewrite Hid. reflexivity.
  - intros now today st H. simpl. rewrite H. auto.
  - intros now today st editing H after. subst after. simpl. rewrite H.
    repeat apply conj.
    + apply length_map.
    + apply update_repo_ids.
    + intros i r Hi. unfold Repositories.update_repo.
      rewrite lookup_map, Hi. simpl.
      split; intros Hid.
      * apply Z.eqb_eq in Hid. rewrite Hid. reflexivity.
      * apply Z.eqb_neq in Hid. rewrite Hid. reflexivity.
Qed.

Lemma handleSubmit_adds_one_or_replaces_in_place_witness :
  let form :=
    {| Repositories.form_name := "Docs";
       Repositories.form_url := "https://github.com/company/docs";
       Repositories.form_description := "";
       Repositories.form_language := "Markdown";
       Repositories.form_status := "archived";
       Repositories.form_branch := "main";
       Repositories.form_lastSync := "2024-02-01" |} in
  let st :=
    {| Repositories.repositories := Repositories.mockRepositories;
       Repositories.showForm := true;
       Repositories.editingRepo := None;
       Repositories.formData := form;
       Repositories.searchTerm := "";
       Repositories.filterStatus := "all";
       Repositories.currentPage := 1 |} in
  Repositories.editingRepo st = None
  /\ length (Repositories.repositories
               (Repositories.handleSubmit 1706745600000 "2024-02-01" st))
     = 3.
Proof.
  intros form st.
  assert (H : Repositories.editingRepo st = None) by reflexivity.
  split; [exact H|].
  exact (proj2 (proj1 (proj2 (proj2
           handleSubmit_adds_one_or_replaces_in_place))
           1706745600000%Z "2024-02-01"%string st H)).
Defined.

Example handleSubmit_edit_ex :
  let form :=
    {| Repositories.form_name := "pipeline";
       Repositories.form_url := "https://github.com/company/data-pipeline";
       Repositories.form_description := "ETL";
       Repositories.form_language := "Python";
       Repositories.form_status := "archived";
       Repositories.form_branch := "main";
       Repositories.form_lastSync := "2024-01-10" |} in
  let st :=
    {| Repositories.repositories := Repositories.mockRepositories;
       Repositories.showForm := true;
       Repositories.editingRepo := Repositories.mockRepositories !! 1%nat;
       Repositories.formData := form;
       Repositories.searchTerm := "";
       Repositories.filterStatus := "all";
       Repositories.currentPage := 1 |} in
  let after :=
    Repositories.repositories (Repositories.handleSubmit 0 "2024-02-01" st) in
  map Repositories.id after = [1%Z; 4%Z]
  /\ map Repositories.name after = ["frontend-app"; "pipeline"]%string
  /\ map Repositories.stars after = [Some 45%Z; None].
Proof. repeat split. Qed.

(* ===================================================================== *)
(** ** The fetch wrapper [apiCall] *)
(* ===================================================================== *)

Section ApiCall.
Import AnalysisContext.
Variable env : option string.
Context {T : Type}.
Variable net : request -> fetch_result T.
Variables (endpoint : string) (options : options).

Local Abbreviation req := (request_of env endpoint options).

Ltac run_async :=
  unfold apiCall, try_finally, try_catch, mbind, Async_bind, bind,
    dispatch, fetch, json_of, throw, console_error, mret, Async_ret, ret;
  cbn [store trace].

(** The store once the two opening dispatches have run. *)
Local Abbreviation opened s :=
  (analysisReducer (analysisReducer s (SET_LOADING true)) CLEAR_ERROR).

Local Abbreviation opening w :=
  (((trace w ++ [Dispatched (SET_LOADING true)])
      ++ [Dispatched CLEAR_ERROR]) ++ [Fetched req]).

Lemma apiCall_failure (w : world) (e : js_error) :
  failure (net req) = Some e ->
  apiCall env net endpoint options w
  = ({| store :=
          analysisReducer
            (analysisReducer (opened (store w))
               (SET_ERROR (or_else (message e) "An error occurred")))
            (SET_LOADING false);
        trace :=
          (opening w
             ++ [Dispatched
                   (SET_ERROR (or_else (message e) "An error occurred"))])
            ++ [Dispatched (SET_LOADING false)] |},
     Thrown e).
Proof.
  unfold failure. run_async.
  destruct (net req) as [e' | r].
  - intros [= ->]. reflexivity.
  - destruct (ok r); cbn [negb].
    + destruct (json_body r) as [data | e'].
      * discriminate.
      * intros [= ->]. reflexivity.
    + intros [= <-]. reflexivity.
Qed.

Lemma apiCall_success (w : world) (r : response T) (data : T) :
  net req = Resolved r ->
  ok r = true ->
  json_body r = Returned data ->
  apiCall env net endpoint options w
  = ({| store := analysisReducer (opened (store w)) (SET_LOADING false);
        trace := opening w ++ [Dispatched (SET_LOADING false)] |},
     Returned data).
Proof.
  intros Hnet Hok Hbody. run_async.
  rewrite Hnet, Hok, Hbody. reflexivity.
Qed.

(** Whatever the network does, the history of an [apiCall] opens with
    the two dispatches and the request, in this order. *)
Lemma apiCall_opening (w : world) :
  exists rest,
    trace (fst (apiCall env net endpoint options w)) = opening w ++ rest.
Proof.
  run_async.
  destruct (net req) as [e | r].
  - eexists. cbn. rewrite <- app_assoc. reflexivity.
  - destruct (ok r); cbn [negb].
    + destruct (json_body r) as [data | e]; eexists; cbn.
      * reflexivity.
      * rewrite <- app_assoc. reflexivity.
    + eexists. cbn. rewrite <- app_assoc. reflexivity.
Qed.

(** A request that does not fail delivers a parsed body. *)
Lemma no_failure_parsed :
  failure (net req) = None ->
  exists r data,
    net req = Resolved r /\ ok r = true /\ json_body r = Returned data.
Proof.
  unfold failure. destruct (net req) as [e | r]; [discriminate|].
  destruct (ok r) eqn:Hok; [|discriminate].
  destruct (json_body r) as [data | e] eqn:Hbody; [|discriminate].
  intros _. exists r, data. auto.
Qed.

End ApiCall.

Section ErrorChannel.
Import JsString AnalysisContext.

Lemma or_else_nonempty (x : string) :
  or_else x "An error occurred" <> ""%string.
Proof.
  unfold or_else. destruct (String.eqb_spec x ""); [discriminate | assumption].
Qed.

Lemma or_else_cases (x fallback : string) :
  (x <> ""%string -> or_else x fallback = x)
  /\ (x = ""%string -> or_else x fallback = fallback).
Proof.
  unfold or_else. destruct (String.eqb_spec x ""); split; congruence.
Qed.

(** The three ways a request fails, and the error thrown in each. *)
Lemma failure_kinds {T : Type} (o : fetch_result T) (e : js_error) :
  failure o = Some e
  <-> o = Rejected e
      \/ (exists r, o = Resolved r /\ ok r = false
            /\ e = Error (String.append "HTTP error! status: "
                            (number_toString (status r))))
      \/ (exists r, o = Resolved r /\ ok r = true /\ json_body r = Thrown e).
Proof.
  unfold failure. split.
  - destruct o as [e' | r].
    + intros [= ->]. auto.
    + destruct (ok r) eqn:Hok.
      * destruct (json_body r) eqn:Hb; [discriminate|].
        intros [= ->]. right. right. eauto.
      * intros [= <-]. right. left. eauto.
  - intros [-> | [(r & -> & Hok & ->) | (r & -> & Hok & Hb)]].
    + reflexivity.
    + rewrite Hok. reflexivity.
    + rewrite Hok, Hb. reflexivity.
Qed.

(** Printing an integer in decimal loses nothing. *)
Lemma number_toString_inj (n m : Z) :
  number_toString n = number_toString m -> n = m.
Proof.
  unfold number_toString. intros H.
  apply DecimalZ.to_int_inj.
  assert (Hnil : forall z, Z.to_int z <> Decimal.Pos Decimal.Nil
                           /\ Z.to_int z <> Decimal.Neg Decimal.Nil).
  { intros z. split; intros Hz;
      pose proof (DecimalZ.of_to z) as Hof; rewrite Hz in Hof;
      cbn in Hof; subst z; discriminate. }
  pose proof (NilZero.isi (Z.to_int n) (proj1 (Hnil n)) (proj2 (Hnil n))) as Hn.
  pose proof (NilZero.isi (Z.to_int m) (proj1 (Hnil m)) (proj2 (Hnil m))) as Hm.
  rewrite H in Hn. congruence.
Qed.

Lemma append_cancel_l (p a b : string) :
  String.append p a = String.append p b -> a = b.
Proof.
  induction p as [|c p IH]; cbn [String.append]; intros H.
  - exact H.
  - injection H as H. exact (IH H).
Qed.

Lemma http_error_message_inj (n m : Z) :
  String.append "HTTP error! status: " (number_toString n)
  = String.append "HTTP error! status: " (number_toString m)
  -> n = m.
Proof.
  intros H. apply number_toString_inj.
  exact (append_cancel_l _ _ _ H).
Qed.

End ErrorChannel.

(** C5.  When the request of an [apiCall] fails (the fetch rejects, the
    response is not ok, or the body does not parse), the call throws the
    failure's error, and the reducer state afterwards has [error] equal to
    that error's message, or to 'An error occurred' when the message is
    empty; the Navbar then renders a banner with exactly this text whose
    button runs [clearError], and [clearError] resets [error] to null. *)
Theorem failed_request_stores_message_banner_dismissible
    (env : option string) (T : Type)
    (net : AnalysisContext.request -> AnalysisContext.fetch_result T)
    (endpoint : string) (options : AnalysisContext.options)
    (s : AnalysisContext.state) (e : AnalysisContext.js_error) :
  failure
    (net (AnalysisContext.request_of env endpoint options)) = Some e ->
  let call := AnalysisContext.apiCall env net endpoint options in
  let s' := AnalysisContext.state_after call s in
  AnalysisContext.result_of call s = AnalysisContext.Thrown e
  /\ (AnalysisContext.message e <> ""%string ->
      AnalysisContext.error s' = Some (AnalysisContext.message e))
  /\ (AnalysisContext.message e = ""%string ->
      AnalysisContext.error s' = Some "An error occurred"%string)
  /\ (exists text,
        AnalysisContext.error s' = Some text
        /\ exists b,
             Navbar.errorBanner (AnalysisContext.error s') = Some b
             /\ Navbar.banner_text b = text
             /\ Navbar.banner_onClick b = AnalysisContext.clearError)
  /\ AnalysisContext.error
       (AnalysisContext.state_after AnalysisContext.clearError s') = None.
Proof.
  intros Hfail call s'.
  assert (Hs' : AnalysisContext.error s'
                = Some (AnalysisContext.or_else (AnalysisContext.message e)
                          "An error occurred")).
  { subst s' call. unfold AnalysisContext.state_after, AnalysisContext.run.
    rewrite (apiCall_failure env net endpoint options _ e Hfail).
    reflexivity. }
  destruct (or_else_cases (AnalysisContext.message e) "An error occurred")
    as [Hne Hempty].
  repeat apply conj.
  - subst call. unfold AnalysisContext.result_of, AnalysisContext.run.
    rewrite (apiCall_failure env net endpoint options _ e Hfail).
    reflexivity.
  - intros H. rewrite Hs', (Hne H). reflexivity.
  - intros H. rewrite Hs', (Hempty H). reflexivity.
  - eexists. split; [exact Hs'|].
    rewrite Hs'. unfold Navbar.errorBanner.
    destruct (String.eqb_spec
                (AnalysisContext.or_else (AnalysisContext.message e)
                   "An error occurred") "") as [Habs | _].
    + destruct (or_else_nonempty _ Habs).
    + eexists. repeat split.
  - reflexivity.
Qed.

Lemma failed_request_stores_message_banner_dismissible_witness :
  let net : AnalysisContext.request -> AnalysisContext.fetch_result unit :=
    fun _ => AnalysisContext.Rejected (AnalysisContext.Error "Failed to fetch") in
  failure
    (net (AnalysisContext.request_of None "/api/v1/health"
            AnalysisContext.no_options))
  = Some (AnalysisContext.Error "Failed to fetch")
  /\ AnalysisContext.result_of
       (AnalysisContext.apiCall None net "/api/v1/health"
          AnalysisContext.no_options)
       AnalysisContext.initialState
     = AnalysisContext.Thrown (AnalysisContext.Error "Failed to fetch").
Proof.
  intros net.
  assert (H : failure
                (net (AnalysisContext.request_of None "/api/v1/health"
                        AnalysisContext.no_options))
              = Some (AnalysisContext.Error "Failed to fetch"))
    by reflexivity.
  split; [exact H|].
  exact (proj1 (failed_request_stores_message_banner_dismissible
                  None unit net "/api/v1/health" AnalysisContext.no_options
                  AnalysisContext.initialState _ H)).
Defined.

(** C6 as stated fails: a 404 response, a 500 response and a rejected
    fetch are three failed requests, and the strings [apiCall] stores for
    them differ pairwise. *)
Lemma stored_message_varies_with_failure :
  let respond (status : Z) : AnalysisContext.request
                             -> AnalysisContext.fetch_result unit :=
    fun _ => AnalysisContext.Resolved
               (AnalysisContext.Response status (AnalysisContext.Returned tt)) in
  let offline : AnalysisContext.request -> AnalysisContext.fetch_result unit :=
    fun _ => AnalysisContext.Rejected (AnalysisContext.Error "Failed to fetch") in
  let stored net :=
    AnalysisContext.error
      (AnalysisContext.state_after
         (AnalysisContext.apiCall None net "/api/v1/health"
            AnalysisContext.no_options)
         AnalysisContext.initialState) in
  stored (respond 404%Z) = Some "HTTP error! status: 404"%string
  /\ stored (respond 500%Z) = Some "HTTP error! status: 500"%string
  /\ stored offline = Some "Failed to fetch"%string
  /\ stored (respond 404%Z) <> stored (respond 500%Z)
  /\ stored (respond 404%Z) <> stored offline.
Proof.
  cbv zeta. repeat apply conj; try reflexivity; vm_compute; discriminate.
Qed.

(** C6 (as amended).  Every failed request is reported on the one
    channel, whatever its kind: the state ends with [loading] false and
    [error] holding one plain string.  The string is the failure's own
    message: the rejection's message when the fetch or the body parse
    rejects, with 'An error occurred' standing in for an empty message,
    and 'HTTP error! status: ' followed by the status code when the
    response is not ok.  Two responses that are not ok therefore store the
    same string exactly when their status codes are equal. *)
Theorem stored_message_is_failure_message
    (env : option string) (T : Type) (endpoint : string)
    (options : AnalysisContext.options) (s : AnalysisContext.state) :
  let after (net : AnalysisContext.request -> AnalysisContext.fetch_result T) :=
    AnalysisContext.state_after
      (AnalysisContext.apiCall env net endpoint options) s in
  let req := AnalysisContext.request_of env endpoint options in
  (forall net e,
      failure (net req) = Some e ->
      AnalysisContext.loading (after net) = false
      /\ AnalysisContext.error (after net)
         = Some (AnalysisContext.or_else (AnalysisContext.message e)
                   "An error occurred"))
  /\ (forall net r,
        net req = AnalysisContext.Resolved r ->
        AnalysisContext.ok r = false ->
        AnalysisContext.error (after net)
        = Some (String.append "HTTP error! status: "
                  (JsString.number_toString (AnalysisContext.status r))))
  /\ (forall net1 net2 r1 r2,
        net1 req = AnalysisContext.Resolved r1 ->
        net2 req = AnalysisContext.Resolved r2 ->
        AnalysisContext.ok r1 = false ->
        AnalysisContext.ok r2 = false ->
        (AnalysisContext.error (after net1) = AnalysisContext.error (after net2)
         <-> AnalysisContext.status r1 = AnalysisContext.status r2)).
Proof.
  intros after req.
  assert (Hfail : forall net e,
             failure (net req) = Some e ->
             after net
             = AnalysisContext.analysisReducer
                 (AnalysisContext.analysisReducer
                    (AnalysisContext.analysisReducer
                       (AnalysisContext.analysisReducer s
                          (AnalysisContext.SET_LOADING true))
                       AnalysisContext.CLEAR_ERROR)
                    (AnalysisContext.SET_ERROR
                       (AnalysisContext.or_else (AnalysisContext.message e)
                          "An error occurred")))
                 (AnalysisContext.SET_LOADING false)).
  { intros net e H. subst after req. cbv beta.
    unfold AnalysisContext.state_after, AnalysisContext.run.
    rewrite (apiCall_failure env net endpoint options _ e H). reflexivity. }
  assert (Hhttp : forall net r,
             net req = AnalysisContext.Resolved r ->
             AnalysisContext.ok r = false ->
             AnalysisContext.error (after net)
             = Some (String.append "HTTP error! status: "
                       (JsString.number_toString (AnalysisContext.status r)))).
  { intros net r Hnet Hok.
    rewrite (Hfail net (AnalysisContext.Error
                          (String.append "HTTP error! status: "
                             (JsString.number_toString
                                (AnalysisContext.status r))))).
    - reflexivity.
    - apply failure_kinds. right. left. eauto. }
  repeat apply conj.
  - intros net e H. rewrite (Hfail net e H). split; reflexivity.
  - exact Hhttp.
  - intros net1 net2 r1 r2 H1 H2 Hok1 Hok2.
    rewrite (Hhttp net1 r1 H1 Hok1), (Hhttp net2 r2 H2 Hok2). split.
    + intros H. apply http_error_message_inj. congruence.
    + intros ->. reflexivity.
Qed.

Lemma stored_message_is_failure_message_witness :
  let net : AnalysisContext.request -> AnalysisContext.fetch_result unit :=
    fun _ => AnalysisContext.Resolved
               (AnalysisContext.Response 503 (AnalysisContext.Returned tt)) in
  net (AnalysisContext.request_of None "/api/v1/health"
         AnalysisContext.no_options)
  = AnalysisContext.Resolved
      (AnalysisContext.Response 503 (AnalysisContext.Returned tt))
  /\ AnalysisContext.ok
       (AnalysisContext.Response 503 (AnalysisContext.Returned tt)) = false
  /\ AnalysisContext.error
       (AnalysisContext.state_after
          (AnalysisContext.apiCall None net "/api/v1/health"
             AnalysisContext.no_options)
          AnalysisContext.initialState)
     = Some "HTTP error! status: 503"%string.
Proof.
  intros net.
  split; [reflexivity|]. split; [reflexivity|].
  exact (proj1 (proj2 (stored_message_is_failure_message
                         None unit "/api/v1/health" AnalysisContext.no_options
                         AnalysisContext.initialState))
           net _ eq_refl eq_refl).
Defined.

(* ===================================================================== *)
(** ** The wrappers around [apiCall] *)
(* ===================================================================== *)

Section Wrappers.
Import AnalysisContext.
Variable env : option string.

Ltac run_wrapper :=
  unfold state_after, result_of, trace_of, run,
    getAnalyses, getRepositories, getCoverageMappings, getMetrics,
    try_catch, mbind, Async_bind, bind.

Lemma failed_store_same_data (s : state) (e : js_error) :
  same_data s (failed_store s e).
Proof. repeat split. Qed.

Lemma getAnalyses_failure net s e :
  failure (net (request_of env "/api/v1/analyses" no_options)) = Some e ->
  state_after (getAnalyses env net) s = failed_store s e
  /\ result_of (getAnalyses env net) s = Thrown e.
Proof.
  intros H. run_wrapper. rewrite (apiCall_failure env net _ _ _ e H).
  split; reflexivity.
Qed.

Lemma getRepositories_failure net s e :
  failure (net (request_of env "/api/v1/repositories" no_options)) = Some e ->
  state_after (getRepositories env net) s = failed_store s e
  /\ result_of (getRepositories env net) s = Thrown e.
Proof.
  intros H. run_wrapper. rewrite (apiCall_failure env net _ _ _ e H).
  split; reflexivity.
Qed.

Lemma getCoverageMappings_failure net s e :
  failure (net (request_of env "/api/v1/coverage-mappings" no_options))
  = Some e ->
  state_after (getCoverageMappings env net) s = failed_store s e
  /\ result_of (getCoverageMappings env net) s = Thrown e.
Proof.
  intros H. run_wrapper. rewrite (apiCall_failure env net _ _ _ e H).
  split; reflexivity.
Qed.

Lemma getMetrics_failure net s e :
  failure (net (request_of env "/api/v1/metrics" no_options)) = Some e ->
  state_after (getMetrics env net) s = failed_store s e
  /\ result_of (getMetrics env net) s = Thrown e.
Proof.
  intros H. run_wrapper. rewrite (apiCall_failure env net _ _ _ e H).
  split; reflexivity.
Qed.

(** What a wrapper leaves behind when its request succeeds: the store
    of the successful [apiCall] with the wrapper's action on top, and the
    five dispatches and the request in the history. *)
Lemma wrapper_success {T : Type} (net : request -> fetch_result T)
    (endpoint label : string) (act : T -> action) (s : state)
    (r : response T) (data : T) :
  net (request_of env endpoint no_options) = Resolved r ->
  ok r = true ->
  json_body r = Returned data ->
  let wrapper : Async T :=
    try_catch
      (result ← apiCall env net endpoint no_options;
       dispatch (act result) ;;
       mret result)
      (fun error => console_error label error ;; throw error) in
  run wrapper s
  = ({| store := analysisReducer (succeeded_store s) (act data);
        trace := [ Dispatched (SET_LOADING true);
                   Dispatched CLEAR_ERROR;
                   Fetched (request_of env endpoint no_options);
                   Dispatched (SET_LOADING false);
                   Dispatched (act data) ] |},
     Returned data).
Proof.
  intros Hnet Hok Hbody wrapper. subst wrapper. run_wrapper.
  rewrite (apiCall_success env net _ _ _ r data Hnet Hok Hbody).
  reflexivity.
Qed.

Lemma getAnalyses_success (net : request -> fetch_result (list json)) (s : state)
    (r : response (list json)) (data : list json) :
  net (request_of env "/api/v1/analyses" no_options) = Resolved r ->
  ok r = true ->
  json_body r = Returned data ->
  run (getAnalyses env net) s
  = ({| store := analysisReducer (succeeded_store s) (SET_ANALYSES data);
        trace := [ Dispatched (SET_LOADING true);
                   Dispatched CLEAR_ERROR;
                   Fetched (request_of env "/api/v1/analyses" no_options);
                   Dispatched (SET_LOADING false);
                   Dispatched (SET_ANALYSES data) ] |},
     Returned data).
Proof.
  exact (wrapper_success net "/api/v1/analyses"
           "Failed to fetch analyses:" SET_ANALYSES s r data).
Qed.

Lemma getRepositories_success (net : request -> fetch_result (list json)) (s : state)
    (r : response (list json)) (data : list json) :
  net (request_of env "/api/v1/repositories" no_options) = Resolved r ->
  ok r = true ->
  json_body r = Returned data ->
  run (getRepositories env net) s
  = ({| store := analysisReducer (succeeded_store s) (SET_REPOSITORIES data);
        trace := [ Dispatched (SET_LOADING true);
                   Dispatched CLEAR_ERROR;
                   Fetched (request_of env "/api/v1/repositories" no_options);
                   Dispatched (SET_LOADING false);
                   Dispatched (SET_REPOSITORIES data) ] |},
     Returned data).
Proof.
  exact (wrapper_success net "/api/v1/repositories"
           "Failed to fetch repositories:" SET_REPOSITORIES s r data).
Qed.

Lemma getCoverageMappings_success (net : request -> fetch_result (list json)) (s : state)
    (r : response (list json)) (data : list json) :
  net (request_of env "/api/v1/coverage-mappings" no_options) = Resolved r ->
  ok r = true ->
  json_body r = Returned data ->
  run (getCoverageMappings env net) s
  = ({| store := analysisReducer (succeeded_store s) (SET_COVERAGE_MAPPINGS data);
        trace := [ Dispatched (SET_LOADING true);
                   Dispatched CLEAR_ERROR;
                   Fetched (request_of env "/api/v1/coverage-mappings" no_options);
                   Dispatched (SET_LOADING false);
                   Dispatched (SET_COVERAGE_MAPPINGS data) ] |},
     Returned data).
Proof.
  exact (wrapper_success net "/api/v1/coverage-mappings"
           "Failed to fetch coverage mappings:" SET_COVERAGE_MAPPINGS s r data).
Qed.

Lemma getMetrics_success (net : request -> fetch_result (gmap string json)) (s : state)
    (r : response (gmap string json)) (data : gmap string json) :
  net (request_of env "/api/v1/metrics" no_options) = Resolved r ->
  ok r = true ->
  json_body r = Returned data ->
  run (getMetrics env net) s
  = ({| store := analysisReducer (succeeded_store s) (UPDATE_STATS data);
        trace := [ Dispatched (SET_LOADING true);
                   Dispatched CLEAR_ERROR;
                   Fetched (request_of env "/api/v1/metrics" no_options);
                   Dispatched (SET_LOADING false);
                   Dispatched (UPDATE_STATS data) ] |},
     Returned data).
Proof.
  exact (wrapper_success net "/api/v1/metrics"
           "Failed to fetch metrics:" UPDATE_STATS s r data).
Qed.

End Wrappers.

(** C7.  When the request behind [getAnalyses], [getRepositories],
    [getCoverageMappings] or [getMetrics] fails, the data fields of the
    reducer state ([analyses], [currentAnalysis], [repositories],
    [coverageMappings], [stats]) are what they were before the call, and
    the call throws. *)
Theorem failed_wrapper_keeps_data_fields
    (env : option string) (s : AnalysisContext.state) :
  (forall net,
      request_fails net
        (AnalysisContext.request_of env "/api/v1/analyses"
           AnalysisContext.no_options) ->
      same_data s
        (AnalysisContext.state_after (AnalysisContext.getAnalyses env net) s)
      /\ exists e,
           AnalysisContext.result_of (AnalysisContext.getAnalyses env net) s
           = AnalysisContext.Thrown e)
  /\ (forall net,
        request_fails net
          (AnalysisContext.request_of env "/api/v1/repositories"
             AnalysisContext.no_options) ->
        same_data s
          (AnalysisContext.state_after
             (AnalysisContext.getRepositories env net) s)
        /\ exists e,
             AnalysisContext.result_of
               (AnalysisContext.getRepositories env net) s
             = AnalysisContext.Thrown e)
  /\ (forall net,
        request_fails net
          (AnalysisContext.request_of env "/api/v1/coverage-mappings"
             AnalysisContext.no_options) ->
        same_data s
          (AnalysisContext.state_after
             (AnalysisContext.getCoverageMappings env net) s)
        /\ exists e,
             AnalysisContext.result_of
               (AnalysisContext.getCoverageMappings env net) s
             = AnalysisContext.Thrown e)
  /\ (forall net,
        request_fails net
          (AnalysisContext.request_of env "/api/v1/metrics"
             AnalysisContext.no_options) ->
        same_data s
          (AnalysisContext.state_after (AnalysisContext.getMetrics env net) s)
        /\ exists e,
             AnalysisContext.result_of (AnalysisContext.getMetrics env net) s
             = AnalysisContext.Thrown e).
Proof.
  unfold request_fails.
  repeat apply conj; intros net Hfail;
    match type of Hfail with
    | failure ?o <> None =>
        destruct (failure o) as [e|] eqn:He;
        [clear Hfail | contradiction]
    end.
  - destruct (getAnalyses_failure env net s e He) as [-> ->].
    split; [apply failed_store_same_data | eauto].
  - destruct (getRepositories_failure env net s e He) as [-> ->].
    split; [apply failed_store_same_data | eauto].
  - destruct (getCoverageMappings_failure env net s e He) as [-> ->].
    split; [apply failed_store_same_data | eauto].
  - destruct (getMetrics_failure env net s e He) as [-> ->].
    split; [apply failed_store_same_data | eauto].
Qed.

Lemma failed_wrapper_keeps_data_fields_witness :
  let net : AnalysisContext.request
            -> AnalysisContext.fetch_result (list AnalysisContext.json) :=
    fun _ => AnalysisContext.Resolved
               (AnalysisContext.Response 500 (AnalysisContext.Returned [])) in
  let s := AnalysisContext.analysisReducer AnalysisContext.initialState
             (AnalysisContext.ADD_ANALYSIS (AnalysisContext.JNumber 7)) in
  request_fails net
    (AnalysisContext.request_of None "/api/v1/analyses"
       AnalysisContext.no_options)
  /\ same_data s
       (AnalysisContext.state_after (AnalysisContext.getAnalyses None net) s).
Proof.
  intros net s.
  assert (H : request_fails net
                (AnalysisContext.request_of None "/api/v1/analyses"
                   AnalysisContext.no_options))
    by (vm_compute; discriminate).
  split; [exact H|].
  exact (proj1 (proj1 (failed_wrapper_keeps_data_fields None s) net H)).
Defined.

(** C8.  Every [apiCall] opens with the dispatch that sets [loading] to
    true, then the dispatch that clears the error, then the request, in
    this order, and the store the request is issued from has [loading] true
    and [error] null.  When the response is ok and its body parses, the
    call returns the parsed body, with [loading] false and [error] null in
    the state; the calling wrapper then dispatches the body into the state,
    after the [loading] flag has been reset:
    [getAnalyses] sets [analyses], [getRepositories] sets [repositories],
    [getCoverageMappings] sets [coverageMappings] and [getMetrics] merges
    the body into [stats], each ending with [loading] false and [error]
    null. *)
Theorem apiCall_steps_in_order_and_success_state
    (env : option string) (s : AnalysisContext.state) :
  (forall (T : Type)
          (net : AnalysisContext.request -> AnalysisContext.fetch_result T)
          (endpoint : string) (options : AnalysisContext.options),
      let call := AnalysisContext.apiCall env net endpoint options in
      let opened :=
        fold_left AnalysisContext.analysisReducer
          [AnalysisContext.SET_LOADING true; AnalysisContext.CLEAR_ERROR] s in
      (exists rest,
          AnalysisContext.trace_of call s
          = [ AnalysisContext.Dispatched (AnalysisContext.SET_LOADING true);
              AnalysisContext.Dispatched AnalysisContext.CLEAR_ERROR;
              AnalysisContext.Fetched
                (AnalysisContext.request_of env endpoint options) ]
            ++ rest)
      /\ AnalysisContext.loading opened = true
      /\ AnalysisContext.error opened = None
      /\ forall r data,
           net (AnalysisContext.request_of env endpoint options)
           = AnalysisContext.Resolved r ->
           AnalysisContext.ok r = true ->
           AnalysisContext.json_body r = AnalysisContext.Returned data ->
           AnalysisContext.result_of call s = AnalysisContext.Returned data
           /\ AnalysisContext.loading (AnalysisContext.state_after call s)
              = false
           /\ AnalysisContext.error (AnalysisContext.state_after call s)
              = None)
  /\ (forall net r data,
        net (AnalysisContext.request_of env "/api/v1/analyses"
               AnalysisContext.no_options)
        = AnalysisContext.Resolved r ->
        AnalysisContext.ok r = true ->
        AnalysisContext.json_body r = AnalysisContext.Returned data ->
        let s' :=
          AnalysisContext.state_after (AnalysisContext.getAnalyses env net) s in
        AnalysisContext.result_of (AnalysisContext.getAnalyses env net) s
        = AnalysisContext.Returned data
        /\ AnalysisContext.trace_of (AnalysisContext.getAnalyses env net) s
           = [ AnalysisContext.Dispatched (AnalysisContext.SET_LOADING true);
               AnalysisContext.Dispatched AnalysisContext.CLEAR_ERROR;
               AnalysisContext.Fetched
                 (AnalysisContext.request_of env "/api/v1/analyses"
                    AnalysisContext.no_options);
               AnalysisContext.Dispatched (AnalysisContext.SET_LOADING false);
               AnalysisContext.Dispatched (AnalysisContext.SET_ANALYSES data) ]
        /\ AnalysisContext.analyses s' = data
        /\ AnalysisContext.loading s' = false
        /\ AnalysisContext.error s' = None)
  /\ (forall net r data,
        net (AnalysisContext.request_of env "/api/v1/repositories"
               AnalysisContext.no_options)
        = AnalysisContext.Resolved r ->
        AnalysisContext.ok r = true ->
        AnalysisContext.json_body r = AnalysisContext.Returned data ->
        let s' :=
          AnalysisContext.state_after
            (AnalysisContext.getRepositories env net) s in
        AnalysisContext.result_of (AnalysisContext.getRepositories env net) s
        = AnalysisContext.Returned data
        /\ AnalysisContext.repositories s' = data
        /\ AnalysisContext.loading s' = false
        /\ AnalysisContext.error s' = None)
  /\ (forall net r data,
        net (AnalysisContext.request_of env "/api/v1/coverage-mappings"
               AnalysisContext.no_options)
        = AnalysisContext.Resolved r ->
        AnalysisContext.ok r = true ->
        AnalysisContext.json_body r = AnalysisContext.Returned data ->
        let s' :=
          AnalysisContext.state_after
            (AnalysisContext.getCoverageMappings env net) s in
        AnalysisContext.result_of
          (AnalysisContext.getCoverageMappings env net) s
        = AnalysisContext.Returned data
        /\ AnalysisContext.coverageMappings s' = data
        /\ AnalysisContext.loading s' = false
        /\ AnalysisContext.error s' = None)
  /\ (forall net r data,
        net (AnalysisContext.request_of env "/api/v1/metrics"
               AnalysisContext.no_options)
        = AnalysisContext.Resolved r ->
        AnalysisContext.ok r = true ->
        AnalysisContext.json_body r = AnalysisContext.Returned data ->
        let s' :=
          AnalysisContext.state_after (AnalysisContext.getMetrics env net) s in
        AnalysisContext.result_of (AnalysisContext.getMetrics env net) s
        = AnalysisContext.Returned data
        /\ AnalysisContext.stats s' = data ∪ AnalysisContext.stats s
        /\ AnalysisContext.loading s' = false
        /\ AnalysisContext.error s' = None).
Proof.
  repeat apply conj.
  - intros T net endpoint options call opened. repeat apply conj.
    + destruct (apiCall_opening env net endpoint options
                  {| AnalysisContext.store := s; AnalysisContext.trace := [] |})
        as [rest Hrest].
      exists rest. exact Hrest.
    + reflexivity.
    + reflexivity.
    + intros r data Hnet Hok Hbody. subst call.
      unfold AnalysisContext.result_of, AnalysisContext.state_after,
        AnalysisContext.run.
      rewrite (apiCall_success env net endpoint options _ r data Hnet Hok Hbody).
      repeat split.
  - intros net r data Hnet Hok Hbody s'. subst s'.
    unfold AnalysisContext.result_of, AnalysisContext.state_after,
      AnalysisContext.trace_of.
    rewrite (getAnalyses_success env net s r data Hnet Hok Hbody).
    repeat split.
  - intros net r data Hnet Hok Hbody s'. subst s'.
    unfold AnalysisContext.result_of, AnalysisContext.state_after.
    rewrite (getRepositories_success env net s r data Hnet Hok Hbody).
    repeat split.
  - intros net r data Hnet Hok Hbody s'. subst s'.
    unfold AnalysisContext.result_of, AnalysisContext.state_after.
    rewrite (getCoverageMappings_success env net s r data Hnet Hok Hbody).
    repeat split.
  - intros net r data Hnet Hok Hbody s'. subst s'.
    unfold AnalysisContext.result_of, AnalysisContext.state_after.
    rewrite (getMetrics_success env net s r data Hnet Hok Hbody).
    repeat split.
Qed.

Lemma apiCall_steps_in_order_and_success_state_witness :
  let body := [AnalysisContext.JString "analysis-1"] in
  let r := AnalysisContext.Response 200 (AnalysisContext.Returned body) in
  let net : AnalysisContext.request
            -> AnalysisContext.fetch_result (list AnalysisContext.json) :=
    fun _ => AnalysisContext.Resolved r in
  let s := AnalysisContext.analysisReducer AnalysisContext.initialState
             (AnalysisContext.SET_ERROR "HTTP error! status: 500") in
  net (AnalysisContext.request_of None "/api/v1/analyses"
         AnalysisContext.no_options) = AnalysisContext.Resolved r
  /\ AnalysisContext.ok r = true
  /\ AnalysisContext.json_body r = AnalysisContext.Returned body
  /\ AnalysisContext.analyses
       (AnalysisContext.state_after (AnalysisContext.getAnalyses None net) s)
     = body
  /\ AnalysisContext.error
       (AnalysisContext.state_after (AnalysisContext.getAnalyses None net) s)
     = None.
Proof.
  intros body r net s.
  pose proof (proj1 (proj2 (apiCall_steps_in_order_and_success_state None s))
                net r body eq_refl eq_refl eq_refl) as H.
  cbv zeta in H.
  split; [reflexivity|]. split; [reflexivity|]. split; [reflexivity|].
  split; apply H.
Defined.

(* ===================================================================== *)
(** ** The reducer *)
(* ===================================================================== *)

(** C9.  [analysisReducer] changes a field only under the action types
    whose case writes it: [analyses] under SET_ANALYSES and ADD_ANALYSIS,
    [currentAnalysis] under ADD_ANALYSIS and SET_CURRENT_ANALYSIS,
    [loading] under SET_LOADING and SET_ERROR, [error] under SET_ERROR and
    CLEAR_ERROR, [repositories] under SET_REPOSITORIES, [coverageMappings]
    under SET_COVERAGE_MAPPINGS, [stats] under UPDATE_STATS.  What is
    written: ADD_ANALYSIS prepends the payload to [analyses] and makes it
    [currentAnalysis]; SET_ERROR stores the payload in [error] and sets
    [loading] to false; CLEAR_ERROR sets [error] to null; SET_LOADING
    stores the payload in [loading]; the SET_ actions store their payload;
    UPDATE_STATS gives every key of the payload the payload's value and
    leaves every other key of [stats] as it was.  An action whose type is
    none of the nine handled types returns the state unchanged. *)
Theorem analysisReducer_writes_only_its_fields
    (s : AnalysisContext.state) (a : AnalysisContext.action) :
  let s' := AnalysisContext.analysisReducer s a in
  let type := AnalysisContext.action_type a in
  (* the frame *)
  (~ In type ["SET_ANALYSES"; "ADD_ANALYSIS"]%string ->
   AnalysisContext.analyses s' = AnalysisContext.analyses s)
  /\ (~ In type ["ADD_ANALYSIS"; "SET_CURRENT_ANALYSIS"]%string ->
      AnalysisContext.currentAnalysis s' = AnalysisContext.currentAnalysis s)
  /\ (~ In type ["SET_LOADING"; "SET_ERROR"]%string ->
      AnalysisContext.loading s' = AnalysisContext.loading s)
  /\ (~ In type ["SET_ERROR"; "CLEAR_ERROR"]%string ->
      AnalysisContext.error s' = AnalysisContext.error s)
  /\ (type <> "SET_REPOSITORIES"%string ->
      AnalysisContext.repositories s' = AnalysisContext.repositories s)
  /\ (type <> "SET_COVERAGE_MAPPINGS"%string ->
      AnalysisContext.coverageMappings s' = AnalysisContext.coverageMappings s)
  /\ (type <> "UPDATE_STATS"%string ->
      AnalysisContext.stats s' = AnalysisContext.stats s)
  (* the writes *)
  /\ (forall payload, a = AnalysisContext.SET_LOADING payload ->
        AnalysisContext.loading s' = payload)
  /\ (forall payload, a = AnalysisContext.SET_ERROR payload ->
        AnalysisContext.error s' = Some payload
        /\ AnalysisContext.loading s' = false)
  /\ (a = AnalysisContext.CLEAR_ERROR -> AnalysisContext.error s' = None)
  /\ (forall payload, a = AnalysisContext.SET_ANALYSES payload ->
        AnalysisContext.analyses s' = payload)
  /\ (forall payload, a = AnalysisContext.ADD_ANALYSIS payload ->
        AnalysisContext.analyses s' = payload :: AnalysisContext.analyses s
        /\ AnalysisContext.currentAnalysis s' = payload)
  /\ (forall payload, a = AnalysisContext.SET_CURRENT_ANALYSIS payload ->
        AnalysisContext.currentAnalysis s' = payload)
  /\ (forall payload, a = AnalysisContext.SET_REPOSITORIES payload ->
        AnalysisContext.repositories s' = payload)
  /\ (forall payload, a = AnalysisContext.SET_COVERAGE_MAPPINGS payload ->
        AnalysisContext.coverageMappings s' = payload)
  /\ (forall payload, a = AnalysisContext.UPDATE_STATS payload ->
        forall key : string,
          AnalysisContext.stats s' !! key
          = match payload !! key with
            | Some value => Some value
            | None => AnalysisContext.stats s !! key
            end)
  (* the default case *)
  /\ (AnalysisContext.is_handled type = false -> s' = s).
Proof.
  intros s' type. subst s' type.
  repeat apply conj;
    try (destruct a; cbn; intros H; first
           [ reflexivity
           | discriminate H
           | exfalso; apply H; auto 6
           | exfalso; apply H; reflexivity ]).
  all: intros payload ->; cbn; try (split; reflexivity); try reflexivity.
  intros key. rewrite lookup_union.
  destruct (payload !! key), (AnalysisContext.stats s !! key); reflexivity.
Qed.

Lemma analysisReducer_writes_only_its_fields_witness :
  let a := AnalysisContext.OTHER "RESET" AnalysisContext.JNull eq_refl in
  AnalysisContext.is_handled (AnalysisContext.action_type a) = false
  /\ AnalysisContext.analysisReducer AnalysisContext.initialState a
     = AnalysisContext.initialState.
Proof.
  intros a. split; [reflexivity|].
  apply (analysisReducer_writes_only_its_fields
           AnalysisContext.initialState a).
  reflexivity.
Defined.

Example analysisReducer_update_stats_ex :
  let payload : gmap string AnalysisContext.json :=
    {[ "totalAnalyses"%string := AnalysisContext.JNumber 12;
       "lastRun"%string := AnalysisContext.JString "2024-01-15" ]} in
  let s' := AnalysisContext.analysisReducer AnalysisContext.initialState
              (AnalysisContext.UPDATE_STATS payload) in
  AnalysisContext.stats s' !! "totalAnalyses"%string
  = Some (AnalysisContext.JNumber 12)
  /\ AnalysisContext.stats s' !! "totalTimeSaved"%string
     = Some (AnalysisContext.JNumber 0)
  /\ AnalysisContext.stats s' !! "lastRun"%string
     = Some (AnalysisContext.JString "2024-01-15")
  /\ AnalysisContext.stats s' !! "missing"%string = None.
Proof. repeat split. Qed.

(* ===================================================================== *)
(** ** Further properties of the two list pages *)
(* ===================================================================== *)

Section ListFacts.
Context {A : Type}.

Lemma filter_sublist (keep : A -> bool) (l : list A) :
  sublist (List.filter keep l) l.
Proof.
  induction l as [|x l IH]; simpl.
  - constructor.
  - destruct (keep x); [apply sublist_skip | apply sublist_cons]; exact IH.
Qed.

Lemma filter_all (keep : A -> bool) (l : list A) :
  (forall x, In x l -> keep x = true) -> List.filter keep l = l.
Proof.
  induction l as [|x l IH]; simpl; intros H; [reflexivity|].
  rewrite (H x) by auto. f_equal. apply IH. auto.
Qed.

Lemma filter_refine (strong weak : A -> bool) (l : list A) :
  (forall x, strong x = true -> weak x = true) ->
  List.filter strong (List.filter weak l) = List.filter strong l.
Proof.
  intros H. induction l as [|x l IH]; simpl; [reflexivity|].
  destruct (weak x) eqn:Hw; simpl.
  - rewrite IH. reflexivity.
  - destruct (strong x) eqn:Hs; [|exact IH].
    rewrite (H x Hs) in Hw. discriminate.
Qed.

End ListFacts.

(** X1.  [handleDelete], once the user confirms, keeps exactly the records
    whose id differs from the given one, in their order; when the user
    declines, the page state is unchanged. *)
Theorem handleDelete_removes_exactly_the_id :
  (forall (id' : Z) (st : Coverage.page),
      (forall m,
          In m (Coverage.mappings (Coverage.handleDelete true id' st))
          <-> In m (Coverage.mappings st) /\ Coverage.id m <> id')
      /\ sublist (Coverage.mappings (Coverage.handleDelete true id' st))
                 (Coverage.mappings st)
      /\ Coverage.handleDelete false id' st = st)
  /\
  (forall (id' : Z) (st : Repositories.page),
      (forall r,
          In r (Repositories.repositories
                  (Repositories.handleDelete true id' st))
          <-> In r (Repositories.repositories st) /\ Repositories.id r <> id')
      /\ sublist (Repositories.repositories
                    (Repositories.handleDelete true id' st))
                 (Repositories.repositories st)
      /\ Repositories.handleDelete false id' st = st).
Proof.
  split; intros id' st; repeat apply conj; try reflexivity;
    try apply filter_sublist.
  - intros m. simpl. rewrite List.filter_In, negb_true_iff, Z.eqb_neq.
    reflexivity.
  - intros r. simpl. rewrite List.filter_In, negb_true_iff, Z.eqb_neq.
    reflexivity.
Qed.

(** X2.  Adding a record and then deleting it again gives the list back:
    when no record of the list carries the id [Date.now()] hands out, a
    submit in add mode followed by a confirmed delete of that id leaves
    the list as it was. *)
Theorem add_then_delete_restores_list :
  (forall (now : Z) (today : string) (st : Coverage.page),
      Coverage.editingMapping st = None ->
      (forall m, In m (Coverage.mappings st) -> Coverage.id m <> now) ->
      Coverage.mappings
        (Coverage.handleDelete true now (Coverage.handleSubmit now today st))
      = Coverage.mappings st)
  /\
  (forall (now : Z) (today : string) (st : Repositories.page),
      Repositories.editingRepo st = None ->
      (forall r, In r (Repositories.repositories st) ->
                 Repositories.id r <> now) ->
      Repositories.repositories
        (Repositories.handleDelete true now
           (Repositories.handleSubmit now today st))
      = Repositories.repositories st).
Proof.
  split; intros now today st Hadd Hfresh; simpl; rewrite Hadd; simpl;
    rewrite Z.eqb_refl; simpl; apply filter_all; intros x Hx;
    apply negb_true_iff, Z.eqb_neq, Hfresh, Hx.
Qed.

Lemma add_then_delete_restores_list_witness :
  let st :=
    {| Coverage.mappings := Coverage.mockMappings;
       Coverage.showForm := true;
       Coverage.editingMapping := None;
       Coverage.formData := Coverage.resetForm "2024-02-01";
       Coverage.searchTerm := "";
       Coverage.filterType := "all";
       Coverage.currentPage := 1 |} in
  Coverage.editingMapping st = None
  /\ (forall m, In m (Coverage.mappings st) -> Coverage.id m <> 1706745600000%Z)
  /\ Coverage.mappings
       (Coverage.handleDelete true 1706745600000
          (Coverage.handleSubmit 1706745600000 "2024-02-01" st))
     = Coverage.mockMappings.
Proof.
  intros st.
  assert (H1 : Coverage.editingMapping st = None) by reflexivity.
  assert (H2 : forall m, In m (Coverage.mappings st) ->
                         Coverage.id m <> 1706745600000%Z).
  { intros m [<- | [<- | [<- | []]]]; discriminate. }
  split; [exact H1|]. split; [exact H2|].
  exact (proj1 add_then_delete_restores_list
           1706745600000%Z "2024-02-01"%string st H1 H2).
Defined.

(** X3.  Opening a mapping with [handleEdit] and submitting the form
    untouched does not give the record back as it was: every record whose
    id is the edited mapping's id comes out with the mapping's texts, its
    coverage percentage turned into text, and its status set to 'active'
    whatever it was; every other record is untouched. *)
Theorem edit_then_submit_mapping
    (now : Z) (today : string) (st : Coverage.page)
    (m : Coverage.mapping) (i : nat) (m' : Coverage.mapping) :
  Coverage.mappings st !! i = Some m' ->
  let after :=
    Coverage.mappings
      (Coverage.handleSubmit now today (Coverage.handleEdit m st)) in
  (Coverage.id m' = Coverage.id m ->
   after !! i
   = Some {| Coverage.id := Coverage.id m';
             Coverage.filePath := Coverage.filePath m;
             Coverage.testFilePath := Coverage.testFilePath m;
             Coverage.testFunctionName := Coverage.testFunctionName m;
             Coverage.coveragePercentage :=
               Coverage.CoverageText
                 (Coverage.coverage_toString (Coverage.coveragePercentage m));
             Coverage.priority := Coverage.priority m;
             Coverage.lastUpdated := Coverage.lastUpdated m;
             Coverage.status := "active" |})
  /\ (Coverage.id m' <> Coverage.id m -> after !! i = Some m').
Proof.
  intros Hi after. subst after. simpl. unfold Coverage.update_mapping.
  rewrite lookup_map, Hi. simpl. split; intros Hid.
  - apply Z.eqb_eq in Hid. rewrite Hid. reflexivity.
  - apply Z.eqb_neq in Hid. rewrite Hid. reflexivity.
Qed.

Lemma edit_then_submit_mapping_witness :
  let m :=
    {| Coverage.id := 5;
       Coverage.filePath := "src/components/Modal.jsx";
       Coverage.testFilePath := "src/components/__tests__/Modal.test.jsx";
       Coverage.testFunctionName := "Modal component tests";
       Coverage.coveragePercentage := Coverage.CoverageNumber 68;
       Coverage.priority := "medium";
       Coverage.lastUpdated := "2024-01-11";
       Coverage.status := "inactive" |} in
  let st :=
    {| Coverage.mappings := [m];
       Coverage.showForm := false;
       Coverage.editingMapping := None;
       Coverage.formData := Coverage.resetForm "2024-02-01";
       Coverage.searchTerm := "";
       Coverage.filterType := "all";
       Coverage.currentPage := 1 |} in
  Coverage.mappings st !! 0%nat = Some m
  /\ Coverage.id m = Coverage.id m
  /\ (Coverage.status <$>
        Coverage.mappings
          (Coverage.handleSubmit 0 "2024-02-01" (Coverage.handleEdit m st))
        !! 0%nat) = Some "active"%string
  /\ (Coverage.coveragePercentage <$>
        Coverage.mappings
          (Coverage.handleSubmit 0 "2024-02-01" (Coverage.handleEdit m st))
        !! 0%nat) = Some (Coverage.CoverageText "68").
Proof.
  intros m st.
  pose proof (proj1 (edit_then_submit_mapping 0 "2024-02-01" st m 0 m eq_refl)
                eq_refl) as H.
  split; [reflexivity|]. split; [reflexivity|].
  rewrite H. split; reflexivity.
Defined.

(** X4.  In Repositories, an edit rebuilds the record from the form alone:
    after [handleEdit] and an untouched submit, every record with the
    edited id keeps its id and the seven form fields but has lost its
    stars, forks, issues, pull requests, coverage and last commit, so its
    coverage badge falls back to 'default'; every other record is
    untouched. *)
Theorem edit_then_submit_repo_drops_counters
    (now : Z) (today : string) (st : Repositories.page)
    (r : Repositories.repo) (i : nat) (r' : Repositories.repo) :
  Repositories.repositories st !! i = Some r' ->
  let after :=
    Repositories.repositories
      (Repositories.handleSubmit now today (Repositories.handleEdit r st)) in
  (Repositories.id r' = Repositories.id r ->
   exists edited,
     after !! i = Some edited
     /\ Repositories.id edited = Repositories.id r'
     /\ (Repositories.name edited, Repositories.url edited,
         Repositories.description edited, Repositories.language edited,
         Repositories.status edited, Repositories.branch edited,
         Repositories.lastSync edited)
        = (Repositories.name r, Repositories.url r,
           Repositories.description r, Repositories.language r,
           Repositories.status r, Repositories.branch r,
           Repositories.lastSync r)
     /\ (Repositories.stars edited, Repositories.forks edited,
         Repositories.issues edited, Repositories.pullRequests edited,
         Repositories.coverage edited)
        = (None, None, None, None, None)
     /\ Repositories.lastCommit edited = None
     /\ Repositories.getCoverageColor (Repositories.coverage edited)
        = "default"%string)
  /\ (Repositories.id r' <> Repositories.id r -> after !! i = Some r').
Proof.
  intros Hi after. subst after. simpl. unfold Repositories.update_repo.
  rewrite lookup_map, Hi. simpl. split; intros Hid.
  - apply Z.eqb_eq in Hid. rewrite Hid. eexists. split; [reflexivity|].
    repeat split.
  - apply Z.eqb_neq in Hid. rewrite Hid. reflexivity.
Qed.

Lemma edit_then_submit_repo_drops_counters_witness :
  let st :=
    {| Repositories.repositories := Repositories.mockRepositories;
       Repositories.showForm := false;
       Repositories.editingRepo := None;
       Repositories.formData := Repositories.resetForm "2024-02-01";
       Repositories.searchTerm := "";
       Repositories.filterStatus := "all";
       Repositories.currentPage := 1 |} in
  exists r,
    Repositories.repositories st !! 0%nat = Some r
    /\ Repositories.stars r = Some 45%Z
    /\ (Repositories.stars <$>
          Repositories.repositories
            (Repositories.handleSubmit 0 "2024-02-01"
               (Repositories.handleEdit r st)) !! 0%nat) = Some None.
Proof.
  intros st.
  destruct (Repositories.repositories st !! 0%nat) as [r|] eqn:Hr;
    [|discriminate Hr].
  exists r. split; [reflexivity|].
  injection Hr as <-. split; [reflexivity|].
  destruct (proj1 (edit_then_submit_repo_drops_counters
                     0 "2024-02-01" st _ 0 _ eq_refl) eq_refl)
    as (edited & -> & _ & _ & Hc & _).
  simpl. injection Hc as -> _ _ _ _. reflexivity.
Defined.

(** X5.  [handleSync] stamps the records with the given id and nothing
    else: the list keeps its length and the id at every position, a
    record with that id gets today's date as [lastSync] and 'Just now' as
    [lastCommit] with every other field kept, every other record is
    untouched, and syncing again on the same day changes nothing more. *)
Theorem handleSync_stamps_only_that_id
    (today : string) (id' : Z) (st : Repositories.page) :
  let after := Repositories.repositories (Repositories.handleSync today id' st) in
  length after = length (Repositories.repositories st)
  /\ map Repositories.id after
     = map Repositories.id (Repositories.repositories st)
  /\ (forall (i : nat) (r : Repositories.repo),
        Repositories.repositories st !! i = Some r ->
        (Repositories.id r = id' ->
         after !! i
         = Some {| Repositories.id := Repositories.id r;
                   Repositories.name := Repositories.name r;
                   Repositories.url := Repositories.url r;
                   Repositories.description := Repositories.description r;
                   Repositories.language := Repositories.language r;
                   Repositories.status := Repositories.status r;
                   Repositories.branch := Repositories.branch r;
                   Repositories.lastSync := today;
                   Repositories.stars := Repositories.stars r;
                   Repositories.forks := Repositories.forks r;
                   Repositories.issues := Repositories.issues r;
                   Repositories.pullRequests := Repositories.pullRequests r;
                   Repositories.coverage := Repositories.coverage r;
                   Repositories.lastCommit := Some "Just now"%string |})
        /\ (Repositories.id r <> id' -> after !! i = Some r))
  /\ Repositories.handleSync today id' (Repositories.handleSync today id' st)
     = Repositories.handleSync today id' st.
Proof.
  intros after. subst after. simpl. repeat apply conj.
  - apply length_map.
  - rewrite map_map. apply map_ext. intros r.
    destruct (Repositories.id r =? id')%Z; reflexivity.
  - intros i r Hi. rewrite lookup_map, Hi. simpl. split; intros Hid.
    + apply Z.eqb_eq in Hid. rewrite Hid. reflexivity.
    + apply Z.eqb_neq in Hid. rewrite Hid. reflexivity.
  - unfold Repositories.handleSync. simpl. f_equal.
    rewrite map_map. apply map_ext. intros r.
    destruct (Repositories.id r =? id')%Z eqn:E; simpl; rewrite E; reflexivity.
Qed.

Lemma handleSync_stamps_only_that_id_witness :
  let st :=
    {| Repositories.repositories := Repositories.mockRepositories;
       Repositories.showForm := false;
       Repositories.editingRepo := None;
       Repositories.formData := Repositories.resetForm "2024-02-01";
       Repositories.searchTerm := "";
       Repositories.filterStatus := "all";
       Repositories.currentPage := 1 |} in
  map Repositories.lastSync
      (Repositories.repositories (Repositories.handleSync "2024-02-01" 4 st))
  = ["2024-01-15"; "2024-02-01"]%string
  /\ length (Repositories.repositories
               (Repositories.handleSync "2024-02-01" 4 st)) = 2%nat.
Proof.
  intros st. split; [reflexivity|].
  exact (proj1 (handleSync_stamps_only_that_id "2024-02-01" 4 st)).
Defined.

Section PageNavigation.
Import JsArray.
Context {A : Type}.
Variable d : Z.
Hypothesis d_pos : (0 < d)%Z.

Local Open Scope Z_scope.

(** A page between 1 and the number of pages shows at least one record. *)
Lemma page_in_range_nonempty (l : list A) (p : Z) :
  1 <= p <= Math_ceil_div (Z.of_nat (length l)) d ->
  slice l ((p - 1) * d) (p * d) <> [].
Proof.
  intros Hp Hnil.
  pose proof (length_slice_page d d_pos l p ltac:(lia)) as Hlen.
  rewrite Hnil in Hlen. simpl in Hlen.
  pose proof (Math_ceil_div_bounds d d_pos (Z.of_nat (length l))).
  nia.
Qed.

(** The numbered buttons are the numbers from 1 to the number of pages. *)
Lemma In_page_buttons (t p : Z) :
  In p (map (fun i => Z.of_nat i + 1) (seq 0 (Z.to_nat t))) <-> 1 <= p <= t.
Proof.
  rewrite in_map_iff. split.
  - intros (i & <- & Hi). apply in_seq in Hi. lia.
  - intros Hp. exists (Z.to_nat (p - 1)). split; [lia|].
    apply in_seq. lia.
Qed.

(** "Showing a to b": [b - a + 1] is the number of records on the page. *)
Lemma showing_range_counts_page (l : list A) (p : Z) :
  1 <= p <= Math_ceil_div (Z.of_nat (length l)) d ->
  Z.min (p * d) (Z.of_nat (length l)) - ((p - 1) * d + 1) + 1
  = Z.of_nat (length (slice l ((p - 1) * d) (p * d))).
Proof.
  intros Hp.
  rewrite (length_slice_page d d_pos l p) by lia.
  pose proof (Math_ceil_div_bounds d d_pos (Z.of_nat (length l))).
  nia.
Qed.

End PageNavigation.

(** X6.  The pagination controls never leave the pages: from a page
    number between 1 and [totalPages], Previous and Next lead to a page
    number in that range again (Previous stays at 1 on the first page,
    Next stays at [totalPages] on the last), every numbered button leads
    to a page in that range, and the page shown afterwards has at least
    one record. *)
Theorem pagination_controls_stay_on_a_page :
  (forall st : Coverage.page,
      let on_page st' :=
        (1 <= Coverage.currentPage st' <= Coverage.rendered_totalPages st')%Z
        /\ Coverage.rendered_rows st' <> [] in
      ((1 <= Coverage.currentPage st <= Coverage.rendered_totalPages st)%Z ->
       on_page (Coverage.clickPrevious st)
       /\ on_page (Coverage.clickNext st)
       /\ (Coverage.currentPage st = 1%Z ->
           Coverage.currentPage (Coverage.clickPrevious st) = 1%Z)
       /\ (Coverage.currentPage st = Coverage.rendered_totalPages st ->
           Coverage.currentPage (Coverage.clickNext st)
           = Coverage.rendered_totalPages st))
      /\ (forall number, In number (Coverage.pageButtons st) ->
                         on_page (Coverage.clickPage number st)))
  /\
  (forall st : Repositories.page,
      let on_page st' :=
        (1 <= Repositories.currentPage st'
         <= Repositories.rendered_totalPages st')%Z
        /\ Repositories.rendered_cards st' <> [] in
      ((1 <= Repositories.currentPage st
        <= Repositories.rendered_totalPages st)%Z ->
       on_page (Repositories.clickPrevious st)
       /\ on_page (Repositories.clickNext st)
       /\ (Repositories.currentPage st = 1%Z ->
           Repositories.currentPage (Repositories.clickPrevious st) = 1%Z)
       /\ (Repositories.currentPage st = Repositories.rendered_totalPages st ->
           Repositories.currentPage (Repositories.clickNext st)
           = Repositories.rendered_totalPages st))
      /\ (forall number, In number (Repositories.pageButtons st) ->
                         on_page (Repositories.clickPage number st))).
Proof.
  split; intros st on_page; subst on_page; cbv beta.
  - assert (Hrows : forall st',
               (1 <= Coverage.currentPage st'
                <= Coverage.rendered_totalPages st')%Z ->
               Coverage.rendered_rows st' <> []).
    { intros st' H.
      apply (page_in_range_nonempty Coverage.itemsPerPage eq_refl _ _ H). }
    split.
    + intros Hp.
      assert (H1 : (1 <= Coverage.currentPage (Coverage.clickPrevious st)
                    <= Coverage.rendered_totalPages (Coverage.clickPrevious st))%Z).
      { change (Coverage.rendered_totalPages (Coverage.clickPrevious st))
          with (Coverage.rendered_totalPages st).
        unfold Coverage.clickPrevious, Coverage.clickNext,
          Coverage.setCurrentPage; cbn [Coverage.currentPage]; lia. }
      assert (H2 : (1 <= Coverage.currentPage (Coverage.clickNext st)
                    <= Coverage.rendered_totalPages (Coverage.clickNext st))%Z).
      { change (Coverage.rendered_totalPages (Coverage.clickNext st))
          with (Coverage.rendered_totalPages st).
        unfold Coverage.clickPrevious, Coverage.clickNext,
          Coverage.setCurrentPage; cbn [Coverage.currentPage]; lia. }
      split; [exact (conj H1 (Hrows _ H1))|].
      split; [exact (conj H2 (Hrows _ H2))|].
      unfold Coverage.clickPrevious, Coverage.clickNext,
        Coverage.setCurrentPage; cbn [Coverage.currentPage]. lia.
    + intros number Hin.
      apply (In_page_buttons (Coverage.rendered_totalPages st)) in Hin.
      assert (H1 : (1 <= Coverage.currentPage (Coverage.clickPage number st)
                    <= Coverage.rendered_totalPages
                         (Coverage.clickPage number st))%Z) by exact Hin.
      exact (conj H1 (Hrows _ H1)).
  - assert (Hrows : forall st',
               (1 <= Repositories.currentPage st'
                <= Repositories.rendered_totalPages st')%Z ->
               Repositories.rendered_cards st' <> []).
    { intros st' H.
      apply (page_in_range_nonempty Repositories.itemsPerPage eq_refl _ _ H). }
    split.
    + intros Hp.
      assert (H1 : (1 <= Repositories.currentPage (Repositories.clickPrevious st)
                    <= Repositories.rendered_totalPages
                         (Repositories.clickPrevious st))%Z).
      { change (Repositories.rendered_totalPages (Repositories.clickPrevious st))
          with (Repositories.rendered_totalPages st).
        unfold Repositories.clickPrevious, Repositories.clickNext,
          Repositories.setCurrentPage; cbn [Repositories.currentPage]; lia. }
      assert (H2 : (1 <= Repositories.currentPage (Repositories.clickNext st)
                    <= Repositories.rendered_totalPages
                         (Repositories.clickNext st))%Z).
      { change (Repositories.rendered_totalPages (Repositories.clickNext st))
          with (Repositories.rendered_totalPages st).
        unfold Repositories.clickPrevious, Repositories.clickNext,
          Repositories.setCurrentPage; cbn [Repositories.currentPage]; lia. }
      split; [exact (conj H1 (Hrows _ H1))|].
      split; [exact (conj H2 (Hrows _ H2))|].
      unfold Repositories.clickPrevious, Repositories.clickNext,
        Repositories.setCurrentPage; cbn [Repositories.currentPage]. lia.
    + intros number Hin.
      apply (In_page_buttons (Repositories.rendered_totalPages st)) in Hin.
      assert (H1 : (1 <= Repositories.currentPage
                          (Repositories.clickPage number st)
                    <= Repositories.rendered_totalPages
                         (Repositories.clickPage number st))%Z) by exact Hin.
      exact (conj H1 (Hrows _ H1)).
Qed.

Lemma pagination_controls_stay_on_a_page_witness :
  let st :=
    {| Coverage.mappings := Coverage.mockMappings;
       Coverage.showForm := false;
       Coverage.editingMapping := None;
       Coverage.formData := Coverage.resetForm "2024-02-01";
       Coverage.searchTerm := "src";
       Coverage.filterType := "all";
       Coverage.currentPage := 1 |} in
  (1 <= Coverage.currentPage st <= Coverage.rendered_totalPages st)%Z
  /\ Coverage.currentPage (Coverage.clickNext st) = 1%Z
  /\ Coverage.rendered_rows (Coverage.clickNext st) <> [].
Proof.
  intros st.
  assert (H : (1 <= Coverage.currentPage st
               <= Coverage.rendered_totalPages st)%Z)
    by (vm_compute; split; discriminate).
  split; [exact H|]. split; [reflexivity|].
  exact (proj2 (proj1 (proj2 (proj1 (proj1
           pagination_controls_stay_on_a_page st) H)))).
Defined.

(** X7.  On a page between 1 and [totalPages], the footer "Showing a to b
    of n results" is consistent with the rows: [a] is at least 1, [b] at
    most [n], and [b - a + 1] is the number of records shown. *)
Theorem showing_range_matches_rows :
  (forall st : Coverage.page,
      (1 <= Coverage.currentPage st <= Coverage.rendered_totalPages st)%Z ->
      (1 <= Coverage.showingFrom st <= Coverage.showingTo st)%Z
      /\ (Coverage.showingTo st
          <= Z.of_nat (length (Coverage.rendered_filtered st)))%Z
      /\ (Coverage.showingTo st - Coverage.showingFrom st + 1)%Z
         = Z.of_nat (length (Coverage.rendered_rows st)))
  /\
  (forall st : Repositories.page,
      (1 <= Repositories.currentPage st
       <= Repositories.rendered_totalPages st)%Z ->
      (1 <= Repositories.showingFrom st <= Repositories.showingTo st)%Z
      /\ (Repositories.showingTo st
          <= Z.of_nat (length (Repositories.rendered_filtered st)))%Z
      /\ (Repositories.showingTo st - Repositories.showingFrom st + 1)%Z
         = Z.of_nat (length (Repositories.rendered_cards st))).
Proof.
  split; intros st Hp.
  - pose proof (showing_range_counts_page Coverage.itemsPerPage eq_refl
                  (Coverage.rendered_filtered st) (Coverage.currentPage st) Hp)
      as Hcount.
    pose proof (page_in_range_nonempty Coverage.itemsPerPage eq_refl
                  (Coverage.rendered_filtered st) (Coverage.currentPage st) Hp)
      as Hne.
    fold (Coverage.paginatedMappings (Coverage.rendered_filtered st)
            (Coverage.currentPage st)) in Hcount, Hne.
    fold (Coverage.rendered_rows st) in Hcount, Hne.
    fold (Coverage.showingFrom st) in Hcount.
    fold (Coverage.showingTo st) in Hcount.
    destruct (Coverage.rendered_rows st) as [|x rows]; [contradiction|].
    simpl length in *.
    unfold Coverage.showingTo in *. unfold Coverage.showingFrom in *.
    unfold Coverage.itemsPerPage in *. lia.
  - pose proof (showing_range_counts_page Repositories.itemsPerPage eq_refl
                  (Repositories.rendered_filtered st)
                  (Repositories.currentPage st) Hp) as Hcount.
    pose proof (page_in_range_nonempty Repositories.itemsPerPage eq_refl
                  (Repositories.rendered_filtered st)
                  (Repositories.currentPage st) Hp) as Hne.
    fold (Repositories.paginatedRepositories (Repositories.rendered_filtered st)
            (Repositories.currentPage st)) in Hcount, Hne.
    fold (Repositories.rendered_cards st) in Hcount, Hne.
    fold (Repositories.showingFrom st) in Hcount.
    fold (Repositories.showingTo st) in Hcount.
    destruct (Repositories.rendered_cards st) as [|x rows]; [contradiction|].
    simpl length in *.
    unfold Repositories.showingTo in *. unfold Repositories.showingFrom in *.
    unfold Repositories.itemsPerPage in *. lia.
Qed.

Lemma showing_range_matches_rows_witness :
  let st :=
    {| Repositories.repositories := Repositories.mockRepositories;
       Repositories.showForm := false;
       Repositories.editingRepo := None;
       Repositories.formData := Repositories.resetForm "2024-02-01";
       Repositories.searchTerm := "";
       Repositories.filterStatus := "all";
       Repositories.currentPage := 1 |} in
  (1 <= Repositories.currentPage st <= Repositories.rendered_totalPages st)%Z
  /\ (Repositories.showingTo st - Repositories.showingFrom st + 1)%Z
     = Z.of_nat (length (Repositories.rendered_cards st)).
Proof.
  intros st.
  assert (H : (1 <= Repositories.currentPage st
               <= Repositories.rendered_totalPages st)%Z)
    by (vm_compute; split; discriminate).
  split; [exact H|].
  exact (proj2 (proj2 (proj2 showing_range_matches_rows st H))).
Defined.

Section SearchTerms.
Import JsString.

Lemma includes_empty (s : string) : includes s "" = true.
Proof. destruct s; reflexivity. Qed.








End SearchTerms.

(** X8.  With the search box empty and the select filter at "all", which
    is how both pages start, nothing is filtered out: the filtered list is
    the whole list. *)
Theorem empty_search_and_all_shows_everything :
  (forall mappings : list Coverage.mapping,
      Coverage.filteredMappings mappings "" "all" = mappings)
  /\ (forall repositories : list Repositories.repo,
        Repositories.filteredRepositories repositories "" "all" = repositories).
Proof.
  split; intros l; apply filter_all; intros x _.
  - unfold Coverage.matchesSearch. cbn [JsString.toLowerCase].
    rewrite !includes_empty. reflexivity.
  - unfold Repositories.matchesSearch. cbn [JsString.toLowerCase].
    rewrite !includes_empty. reflexivity.
Qed.



(** X10.  Filtering never reorders or repeats records: what a select
    value shows is a sublist of what "all" shows for the same search term,
    which is a sublist of the whole list. *)
Theorem filtered_is_ordered_sublist :
  (forall (mappings : list Coverage.mapping) (term selected : string),
      sublist (Coverage.filteredMappings mappings term selected)
              (Coverage.filteredMappings mappings term "all")
      /\ sublist (Coverage.filteredMappings mappings term "all") mappings)
  /\
  (forall (repositories : list Repositories.repo) (term selected : string),
      sublist (Repositories.filteredRepositories repositories term selected)
              (Repositories.filteredRepositories repositories term "all")
      /\ sublist (Repositories.filteredRepositories repositories term "all")
                 repositories).
Proof.
  split; intros l term selected; (split; [|apply filter_sublist]).
  - unfold Coverage.filteredMappings.
    rewrite <- (filter_refine
                  (fun m => Coverage.matchesSearch term m
                            && Coverage.matchesFilter selected m)
                  (fun m => Coverage.matchesSearch term m
                            && Coverage.matchesFilter "all" m) l).
    + apply filter_sublist.
    + intros m. rewrite !andb_true_iff. intros [Hs _]. split; [exact Hs|].
      reflexivity.
  - unfold Repositories.filteredRepositories.
    rewrite <- (filter_refine
                  (fun r => Repositories.matchesSearch term r
                            && Repositories.matchesFilter selected r)
                  (fun r => Repositories.matchesSearch term r
                            && Repositories.matchesFilter "all" r) l).
    + apply filter_sublist.
    + intros r. rewrite !andb_true_iff. intros [Hs _]. split; [exact Hs|].
      reflexivity.
Qed.

(* ===================================================================== *)
(** ** Further properties of the provider *)
(* ===================================================================== *)

Section ProviderFacts.
Import AnalysisContext.
Variable env : option string.

Ltac run_provider :=
  unfold state_after, result_of, trace_of, run,
    getAnalyses, getRepositories, getCoverageMappings, getMetrics,
    getHealthStatus, analyzeImpact, createCoverageMapping,
    try_catch, mbind, Async_bind, bind, mret, Async_ret, ret, throw,
    console_error, dispatch;
  cbn [store trace fst snd].

Lemma requests_of_app (t1 t2 : list event) :
  requests_of (t1 ++ t2) = requests_of t1 ++ requests_of t2.
Proof.
  induction t1 as [|[a | req | label e] t1 IH]; simpl; rewrite ?IH; reflexivity.
Qed.

Lemma logged_of_app (t1 t2 : list event) :
  logged_of (t1 ++ t2) = logged_of t1 ++ logged_of t2.
Proof.
  induction t1 as [|[a | req | label e] t1 IH]; simpl; rewrite ?IH; reflexivity.
Qed.

(** Every request either fails with an error or delivers a parsed body. *)
Lemma failure_or_parsed {T : Type} (net : request -> fetch_result T)
    (req : request) :
  (exists e, failure (net req) = Some e)
  \/ (exists r data,
         net req = Resolved r /\ ok r = true /\ json_body r = Returned data).
Proof.
  unfold failure. destruct (net req) as [e | r]; [left; eauto|].
  destruct (ok r) eqn:Hok; [|left; eauto].
  destruct (json_body r) as [data | e] eqn:Hbody; [|left; eauto].
  right. exists r, data. auto.
Qed.

Lemma succeeded_not_failed {T : Type} (o : fetch_result T)
    (r : response T) (data : T) :
  o = Resolved r -> ok r = true -> json_body r = Returned data ->
  failure o = None.
Proof. intros -> Hok Hbody. unfold failure. rewrite Hok, Hbody. reflexivity. Qed.

(** [getCoverageMappings] from any world, when its request fails. *)
Lemma getCoverageMappings_failure_at net (w : world) (e : js_error) :
  failure (net (request_of env "/api/v1/coverage-mappings" no_options))
  = Some e ->
  getCoverageMappings env net w
  = ({| store := failed_store (store w) e;
        trace :=
          trace w
          ++ [ Dispatched (SET_LOADING true);
               Dispatched CLEAR_ERROR;
               Fetched (request_of env "/api/v1/coverage-mappings" no_options);
               Dispatched (SET_ERROR (or_else (message e) "An error occurred"));
               Dispatched (SET_LOADING false);
               ConsoleError "Failed to fetch coverage mappings:" e ] |},
     Thrown e).
Proof.
  intros H. run_provider. rewrite (apiCall_failure env net _ _ w e H).
  cbn [store trace]. rewrite <- !app_assoc. reflexivity.
Qed.

(** [getCoverageMappings] from any world, when its request succeeds. *)
Lemma getCoverageMappings_success_at net (w : world) r data :
  net (request_of env "/api/v1/coverage-mappings" no_options) = Resolved r ->
  ok r = true ->
  json_body r = Returned data ->
  getCoverageMappings env net w
  = ({| store :=
          analysisReducer (succeeded_store (store w))
            (SET_COVERAGE_MAPPINGS data);
        trace :=
          trace w
          ++ [ Dispatched (SET_LOADING true);
               Dispatched CLEAR_ERROR;
               Fetched (request_of env "/api/v1/coverage-mappings" no_options);
               Dispatched (SET_LOADING false);
               Dispatched (SET_COVERAGE_MAPPINGS data) ] |},
     Returned data).
Proof.
  intros Hnet Hok Hbody. run_provider.
  rewrite (apiCall_success env net _ _ w r data Hnet Hok Hbody).
  cbn [store trace]. rewrite <- !app_assoc. reflexivity.
Qed.

(** An [apiCall] adds exactly its own request to the history. *)
Lemma apiCall_requests {T : Type} (net : request -> fetch_result T)
    (endpoint : string) (options : options) (w : world) :
  requests_of (trace (fst (apiCall env net endpoint options w)))
  = requests_of (trace w) ++ [request_of env endpoint options].
Proof.
  destruct (failure_or_parsed net (request_of env endpoint options))
    as [[e He] | (r & data & Hnet & Hok & Hbody)].
  - rewrite (apiCall_failure env net endpoint options w e He).
    cbn [fst trace]. rewrite !requests_of_app. cbn. rewrite !app_nil_r.
    reflexivity.
  - rewrite (apiCall_success env net endpoint options w r data Hnet Hok Hbody).
    cbn [fst trace]. rewrite !requests_of_app. cbn. rewrite !app_nil_r.
    reflexivity.
Qed.

End ProviderFacts.

(** X11.  An [apiCall] never leaves the loading flag on and never touches
    the data: whatever the network does and whatever state it starts from,
    afterwards [loading] is false, the five data fields are as before, and
    [error] is null exactly when the request delivered a parsed body, so a
    stale error never survives a successful call.  The same holds for
    [getHealthStatus], which dispatches nothing of its own. *)
Theorem apiCall_ends_idle_error_iff_failed
    (env : option string) (s : AnalysisContext.state) :
  (forall (T : Type)
          (net : AnalysisContext.request -> AnalysisContext.fetch_result T)
          (endpoint : string) (options : AnalysisContext.options),
      let s' :=
        AnalysisContext.state_after
          (AnalysisContext.apiCall env net endpoint options) s in
      AnalysisContext.loading s' = false
      /\ same_data s s'
      /\ (AnalysisContext.error s' = None
          <-> failure (net (AnalysisContext.request_of env endpoint options))
              = None))
  /\
  (forall net,
      let s' :=
        AnalysisContext.state_after (AnalysisContext.getHealthStatus env net) s in
      AnalysisContext.loading s' = false
      /\ same_data s s'
      /\ (AnalysisContext.error s' = None
          <-> failure (net (AnalysisContext.request_of env "/api/v1/health"
                              AnalysisContext.no_options))
              = None)).
Proof.
  split.
  - intros T net endpoint options s'. subst s'.
    unfold AnalysisContext.state_after, AnalysisContext.run.
    destruct (failure_or_parsed net
                (AnalysisContext.request_of env endpoint options))
      as [[e He] | (r & data & Hnet & Hok & Hbody)].
    + rewrite (apiCall_failure env net endpoint options _ e He), He.
      repeat split; discriminate.
    + rewrite (apiCall_success env net endpoint options _ r data Hnet Hok Hbody).
      rewrite (succeeded_not_failed _ r data Hnet Hok Hbody).
      repeat split.
  - intros net s'. subst s'.
    unfold AnalysisContext.state_after, AnalysisContext.run,
      AnalysisContext.getHealthStatus, AnalysisContext.try_catch,
      mbind, AnalysisContext.Async_bind, AnalysisContext.bind.
    destruct (failure_or_parsed net
                (AnalysisContext.request_of env "/api/v1/health"
                   AnalysisContext.no_options))
      as [[e He] | (r & data & Hnet & Hok & Hbody)].
    + rewrite (apiCall_failure env net _ _ _ e He), He.
      repeat split; discriminate.
    + rewrite (apiCall_success env net _ _ _ r data Hnet Hok Hbody).
      rewrite (succeeded_not_failed _ r data Hnet Hok Hbody).
      repeat split.
Qed.

(** X12.  One call, one request: whatever the outcome, the history of an
    [apiCall] holds exactly one fetch, of the base URL followed by the
    endpoint; a failed request is not retried.  The same holds for each of
    the wrappers that make a single call. *)
Theorem one_request_per_call (env : option string) (s : AnalysisContext.state) :
  (forall (T : Type)
          (net : AnalysisContext.request -> AnalysisContext.fetch_result T)
          (endpoint : string) (options : AnalysisContext.options),
      AnalysisContext.requests_of
        (AnalysisContext.trace_of
           (AnalysisContext.apiCall env net endpoint options) s)
      = [AnalysisContext.request_of env endpoint options]
      /\ AnalysisContext.req_url
           (AnalysisContext.request_of env endpoint options)
         = String.append (AnalysisContext.API_BASE_URL env) endpoint)
  /\ (forall net,
        AnalysisContext.requests_of
          (AnalysisContext.trace_of (AnalysisContext.getAnalyses env net) s)
        = [AnalysisContext.request_of env "/api/v1/analyses"
             AnalysisContext.no_options])
  /\ (forall net,
        AnalysisContext.requests_of
          (AnalysisContext.trace_of (AnalysisContext.getRepositories env net) s)
        = [AnalysisContext.request_of env "/api/v1/repositories"
             AnalysisContext.no_options])
  /\ (forall net,
        AnalysisContext.requests_of
          (AnalysisContext.trace_of
             (AnalysisContext.getCoverageMappings env net) s)
        = [AnalysisContext.request_of env "/api/v1/coverage-mappings"
             AnalysisContext.no_options])
  /\ (forall net,
        AnalysisContext.requests_of
          (AnalysisContext.trace_of (AnalysisContext.getMetrics env net) s)
        = [AnalysisContext.request_of env "/api/v1/metrics"
             AnalysisContext.no_options])
  /\ (forall net,
        AnalysisContext.requests_of
          (AnalysisContext.trace_of (AnalysisContext.getHealthStatus env net) s)
        = [AnalysisContext.request_of env "/api/v1/health"
             AnalysisContext.no_options]).
Proof.
  assert (Hone : forall (T : Type)
                        (net : AnalysisContext.request
                               -> AnalysisContext.fetch_result T)
                        endpoint options,
             AnalysisContext.requests_of
               (AnalysisContext.trace
                  (fst (AnalysisContext.apiCall env net endpoint options
                          {| AnalysisContext.store := s;
                             AnalysisContext.trace := [] |})))
             = [AnalysisContext.request_of env endpoint options]).
  { intros. rewrite apiCall_requests. reflexivity. }
  repeat apply conj.
  - intros T net endpoint options. split; [apply Hone | reflexivity].
  - intros net. specialize (Hone _ net "/api/v1/analyses"%string
                              AnalysisContext.no_options).
    unfold AnalysisContext.trace_of, AnalysisContext.run,
      AnalysisContext.getAnalyses, AnalysisContext.try_catch,
      mbind, AnalysisContext.Async_bind, AnalysisContext.bind.
    destruct (AnalysisContext.apiCall env net _ _ _) as [w' [data | e]];
      cbn in *; rewrite requests_of_app, Hone; reflexivity.
  - intros net. specialize (Hone _ net "/api/v1/repositories"%string
                              AnalysisContext.no_options).
    unfold AnalysisContext.trace_of, AnalysisContext.run,
      AnalysisContext.getRepositories, AnalysisContext.try_catch,
      mbind, AnalysisContext.Async_bind, AnalysisContext.bind.
    destruct (AnalysisContext.apiCall env net _ _ _) as [w' [data | e]];
      cbn in *; rewrite requests_of_app, Hone; reflexivity.
  - intros net. specialize (Hone _ net "/api/v1/coverage-mappings"%string
                              AnalysisContext.no_options).
    unfold AnalysisContext.trace_of, AnalysisContext.run,
      AnalysisContext.getCoverageMappings, AnalysisContext.try_catch,
      mbind, AnalysisContext.Async_bind, AnalysisContext.bind.
    destruct (AnalysisContext.apiCall env net _ _ _) as [w' [data | e]];
      cbn in *; rewrite requests_of_app, Hone; reflexivity.
  - intros net. specialize (Hone _ net "/api/v1/metrics"%string
                              AnalysisContext.no_options).
    unfold AnalysisContext.trace_of, AnalysisContext.run,
      AnalysisContext.getMetrics, AnalysisContext.try_catch,
      mbind, AnalysisContext.Async_bind, AnalysisContext.bind.
    destruct (AnalysisContext.apiCall env net _ _ _) as [w' [data | e]];
      cbn in *; rewrite requests_of_app, Hone; reflexivity.
  - intros net. specialize (Hone _ net "/api/v1/health"%string
                              AnalysisContext.no_options).
    unfold AnalysisContext.trace_of, AnalysisContext.run,
      AnalysisContext.getHealthStatus, AnalysisContext.try_catch,
      mbind, AnalysisContext.Async_bind, AnalysisContext.bind.
    destruct (AnalysisContext.apiCall env net _ _ _) as [w' [data | e]];
      cbn in *; rewrite ?requests_of_app, Hone; reflexivity.
Qed.

Section Posting.
Import AnalysisContext.
Variable env : option string.
Variable stringify : json -> string.

Ltac run_posting :=
  unfold state_after, result_of, trace_of, run,
    analyzeImpact, createCoverageMapping,
    try_catch, mbind, Async_bind, bind, mret, Async_ret, ret, throw,
    console_error, dispatch;
  cbn [store trace fst snd].

Lemma analyzeImpact_success net s analysisRequest r data :
  net (request_of env "/api/v1/analyze" (post_options stringify analysisRequest))
  = Resolved r ->
  ok r = true ->
  json_body r = Returned data ->
  run (analyzeImpact env stringify net analysisRequest) s
  = ({| store := analysisReducer (succeeded_store s) (ADD_ANALYSIS data);
        trace :=
          [ Dispatched (SET_LOADING true);
            Dispatched CLEAR_ERROR;
            Fetched (request_of env "/api/v1/analyze"
                       (post_options stringify analysisRequest));
            Dispatched (SET_LOADING false);
            Dispatched (ADD_ANALYSIS data) ] |},
     Returned data).
Proof.
  intros Hnet Hok Hbody. run_posting.
  rewrite (apiCall_success env net _ _ _ r data Hnet Hok Hbody).
  reflexivity.
Qed.

Lemma analyzeImpact_failure net s analysisRequest e :
  failure (net (request_of env "/api/v1/analyze"
                  (post_options stringify analysisRequest))) = Some e ->
  run (analyzeImpact env stringify net analysisRequest) s
  = ({| store := failed_store s e;
        trace :=
          [ Dispatched (SET_LOADING true);
            Dispatched CLEAR_ERROR;
            Fetched (request_of env "/api/v1/analyze"
                       (post_options stringify analysisRequest));
            Dispatched (SET_ERROR (or_else (message e) "An error occurred"));
            Dispatched (SET_LOADING false);
            ConsoleError "Analysis failed:" e ] |},
     Thrown e).
Proof.
  intros He. run_posting.
  rewrite (apiCall_failure env net _ _ _ e He).
  reflexivity.
Qed.

(** The three ways [createCoverageMapping] can go, from a fresh history. *)
Lemma createCoverageMapping_post_failure net refresh s mappingData e :
  failure (net (request_of env "/api/v1/coverage-mappings"
                  (post_options stringify mappingData))) = Some e ->
  run (createCoverageMapping env stringify net refresh mappingData) s
  = ({| store := failed_store s e;
        trace :=
          [ Dispatched (SET_LOADING true);
            Dispatched CLEAR_ERROR;
            Fetched (request_of env "/api/v1/coverage-mappings"
                       (post_options stringify mappingData));
            Dispatched (SET_ERROR (or_else (message e) "An error occurred"));
            Dispatched (SET_LOADING false);
            ConsoleError "Failed to create coverage mapping:" e ] |},
     Thrown e).
Proof.
  intros He. run_posting.
  rewrite (apiCall_failure env net _ _ _ e He).
  reflexivity.
Qed.

Lemma createCoverageMapping_refresh_failure net refresh s mappingData
    r created e :
  net (request_of env "/api/v1/coverage-mappings"
         (post_options stringify mappingData)) = Resolved r ->
  ok r = true ->
  json_body r = Returned created ->
  failure (refresh (request_of env "/api/v1/coverage-mappings" no_options))
  = Some e ->
  run (createCoverageMapping env stringify net refresh mappingData) s
  = ({| store := failed_store (succeeded_store s) e;
        trace :=
          [ Dispatched (SET_LOADING true);
            Dispatched CLEAR_ERROR;
            Fetched (request_of env "/api/v1/coverage-mappings"
                       (post_options stringify mappingData));
            Dispatched (SET_LOADING false);
            Dispatched (SET_LOADING true);
            Dispatched CLEAR_ERROR;
            Fetched (request_of env "/api/v1/coverage-mappings" no_options);
            Dispatched (SET_ERROR (or_else (message e) "An error occurred"));
            Dispatched (SET_LOADING false);
            ConsoleError "Failed to fetch coverage mappings:" e;
            ConsoleError "Failed to create coverage mapping:" e ] |},
     Thrown e).
Proof.
  intros Hnet Hok Hbody He. run_posting.
  rewrite (apiCall_success env net _ _ _ r created Hnet Hok Hbody).
  rewrite (getCoverageMappings_failure_at env refresh _ e He).
  reflexivity.
Qed.

Lemma createCoverageMapping_success net refresh s mappingData
    r created r' listed :
  net (request_of env "/api/v1/coverage-mappings"
         (post_options stringify mappingData)) = Resolved r ->
  ok r = true ->
  json_body r = Returned created ->
  refresh (request_of env "/api/v1/coverage-mappings" no_options)
  = Resolved r' ->
  ok r' = true ->
  json_body r' = Returned listed ->
  run (createCoverageMapping env stringify net refresh mappingData) s
  = ({| store :=
          analysisReducer (succeeded_store (succeeded_store s))
            (SET_COVERAGE_MAPPINGS listed);
        trace :=
          [ Dispatched (SET_LOADING true);
            Dispatched CLEAR_ERROR;
            Fetched (request_of env "/api/v1/coverage-mappings"
                       (post_options stringify mappingData));
            Dispatched (SET_LOADING false);
            Dispatched (SET_LOADING true);
            Dispatched CLEAR_ERROR;
            Fetched (request_of env "/api/v1/coverage-mappings" no_options);
            Dispatched (SET_LOADING false);
            Dispatched (SET_COVERAGE_MAPPINGS listed) ] |},
     Returned created).
Proof.
  intros Hnet Hok Hbody Hnet' Hok' Hbody'. run_posting.
  rewrite (apiCall_success env net _ _ _ r created Hnet Hok Hbody).
  rewrite (getCoverageMappings_success_at env refresh _ r' listed
             Hnet' Hok' Hbody').
  reflexivity.
Qed.

End Posting.

(** X13.  [analyzeImpact] sends one POST to /api/v1/analyze whose body is
    the serialized request.  When it succeeds, the parsed result is
    returned, put at the head of [analyses] and made [currentAnalysis],
    with [loading] false and [error] null.  When it fails, the error is
    rethrown and logged once, and the data fields stay as they were. *)
Theorem analyzeImpact_records_result_or_keeps_data
    (env : option string)
    (stringify : AnalysisContext.json -> string)
    (net : AnalysisContext.request
           -> AnalysisContext.fetch_result AnalysisContext.json)
    (analysisRequest : AnalysisContext.json) (s : AnalysisContext.state) :
  let req :=
    AnalysisContext.request_of env "/api/v1/analyze"
      (AnalysisContext.post_options stringify analysisRequest) in
  let call := AnalysisContext.analyzeImpact env stringify net analysisRequest in
  let s' := AnalysisContext.state_after call s in
  (AnalysisContext.req_method req = Some "POST"%string
   /\ AnalysisContext.req_body req = Some (stringify analysisRequest))
  /\ (forall r data,
        net req = AnalysisContext.Resolved r ->
        AnalysisContext.ok r = true ->
        AnalysisContext.json_body r = AnalysisContext.Returned data ->
        AnalysisContext.result_of call s = AnalysisContext.Returned data
        /\ AnalysisContext.requests_of (AnalysisContext.trace_of call s) = [req]
        /\ AnalysisContext.analyses s' = data :: AnalysisContext.analyses s
        /\ AnalysisContext.currentAnalysis s' = data
        /\ AnalysisContext.loading s' = false
        /\ AnalysisContext.error s' = None)
  /\ (forall e,
        failure (net req) = Some e ->
        AnalysisContext.result_of call s = AnalysisContext.Thrown e
        /\ AnalysisContext.requests_of (AnalysisContext.trace_of call s) = [req]
        /\ AnalysisContext.logged_of (AnalysisContext.trace_of call s)
           = [("Analysis failed:"%string, e)]
        /\ same_data s s').
Proof.
  intros req call s'. subst req call s'.
  split; [split; reflexivity|]. split.
  - intros r data Hnet Hok Hbody.
    unfold AnalysisContext.result_of, AnalysisContext.state_after,
      AnalysisContext.trace_of.
    rewrite (analyzeImpact_success env stringify net s analysisRequest r data
               Hnet Hok Hbody).
    repeat split.
  - intros e He.
    unfold AnalysisContext.result_of, AnalysisContext.state_after,
      AnalysisContext.trace_of.
    rewrite (analyzeImpact_failure env stringify net s analysisRequest e He).
    repeat split.
Qed.

Lemma analyzeImpact_records_result_or_keeps_data_witness :
  let stringify : AnalysisContext.json -> string := fun _ => "{}"%string in
  let result := AnalysisContext.JString "analysis-42" in
  let r := AnalysisContext.Response 200 (AnalysisContext.Returned result) in
  let net : AnalysisContext.request
            -> AnalysisContext.fetch_result AnalysisContext.json :=
    fun _ => AnalysisContext.Resolved r in
  let s := AnalysisContext.analysisReducer AnalysisContext.initialState
             (AnalysisContext.ADD_ANALYSIS (AnalysisContext.JString "analysis-41")) in
  AnalysisContext.ok r = true
  /\ AnalysisContext.analyses
       (AnalysisContext.state_after
          (AnalysisContext.analyzeImpact None stringify net AnalysisContext.JNull)
          s)
     = [AnalysisContext.JString "analysis-42";
        AnalysisContext.JString "analysis-41"].
Proof.
  intros stringify result r net s.
  split; [reflexivity|].
  exact (proj1 (proj2 (proj2 (proj1 (proj2
           (analyzeImpact_records_result_or_keeps_data
              None stringify net AnalysisContext.JNull s))
           r result eq_refl eq_refl eq_refl)))).
Defined.

(** X14.  When the POST of [createCoverageMapping] fails, the refresh is
    never requested: the history holds the POST alone, the error is
    rethrown and stored as the message, and the data fields stay as they
    were. *)
Theorem createCoverageMapping_failed_post_skips_refresh
    (env : option string)
    (stringify : AnalysisContext.json -> string)
    (net : AnalysisContext.request
           -> AnalysisContext.fetch_result AnalysisContext.json)
    (refresh : AnalysisContext.request
               -> AnalysisContext.fetch_result (list AnalysisContext.json))
    (mappingData : AnalysisContext.json) (s : AnalysisContext.state)
    (e : AnalysisContext.js_error) :
  let post :=
    AnalysisContext.request_of env "/api/v1/coverage-mappings"
      (AnalysisContext.post_options stringify mappingData) in
  let call :=
    AnalysisContext.createCoverageMapping env stringify net refresh mappingData in
  let s' := AnalysisContext.state_after call s in
  failure (net post) = Some e ->
  AnalysisContext.result_of call s = AnalysisContext.Thrown e
  /\ AnalysisContext.requests_of (AnalysisContext.trace_of call s) = [post]
  /\ same_data s s'
  /\ AnalysisContext.loading s' = false
  /\ AnalysisContext.error s'
     = Some (AnalysisContext.or_else (AnalysisContext.message e)
               "An error occurred").
Proof.
  intros post call s' He. subst post call s'.
  unfold AnalysisContext.result_of, AnalysisContext.state_after,
    AnalysisContext.trace_of.
  rewrite (createCoverageMapping_post_failure env stringify net refresh s
             mappingData e He).
  repeat split.
Qed.

Lemma createCoverageMapping_failed_post_skips_refresh_witness :
  let stringify : AnalysisContext.json -> string := fun _ => "{}"%string in
  let net : AnalysisContext.request
            -> AnalysisContext.fetch_result AnalysisContext.json :=
    fun _ => AnalysisContext.Resolved
               (AnalysisContext.Response 422
                  (AnalysisContext.Returned AnalysisContext.JNull)) in
  let refresh : AnalysisContext.request
                -> AnalysisContext.fetch_result (list AnalysisContext.json) :=
    fun _ => AnalysisContext.Resolved
               (AnalysisContext.Response 200 (AnalysisContext.Returned [])) in
  let call :=
    AnalysisContext.createCoverageMapping None stringify net refresh
      AnalysisContext.JNull in
  failure (net (AnalysisContext.request_of None "/api/v1/coverage-mappings"
                  (AnalysisContext.post_options stringify AnalysisContext.JNull)))
  = Some (AnalysisContext.Error "HTTP error! status: 422")
  /\ length (AnalysisContext.requests_of
               (AnalysisContext.trace_of call AnalysisContext.initialState))
     = 1%nat.
Proof.
  intros stringify net refresh call.
  assert (H : failure
                (net (AnalysisContext.request_of None "/api/v1/coverage-mappings"
                        (AnalysisContext.post_options stringify
                           AnalysisContext.JNull)))
              = Some (AnalysisContext.Error "HTTP error! status: 422"))
    by reflexivity.
  split; [exact H|]. subst call.
  rewrite (proj1 (proj2 (createCoverageMapping_failed_post_skips_refresh
                           None stringify net refresh AnalysisContext.JNull
                           AnalysisContext.initialState _ H))).
  reflexivity.
Defined.

(** X15.  When both the POST and the refresh of [createCoverageMapping]
    succeed, the call returns the body of the POST (not the refreshed
    list), [coverageMappings] holds the refreshed list, the other data
    fields are as before, and the history holds the POST and then the GET
    to the same URL. *)
Theorem createCoverageMapping_success_refreshes_list
    (env : option string)
    (stringify : AnalysisContext.json -> string)
    (net : AnalysisContext.request
           -> AnalysisContext.fetch_result AnalysisContext.json)
    (refresh : AnalysisContext.request
               -> AnalysisContext.fetch_result (list AnalysisContext.json))
    (mappingData : AnalysisContext.json) (s : AnalysisContext.state)
    (r : AnalysisContext.response AnalysisContext.json)
    (created : AnalysisContext.json)
    (r' : AnalysisContext.response (list AnalysisContext.json))
    (listed : list AnalysisContext.json) :
  let post :=
    AnalysisContext.request_of env "/api/v1/coverage-mappings"
      (AnalysisContext.post_options stringify mappingData) in
  let get :=
    AnalysisContext.request_of env "/api/v1/coverage-mappings"
      AnalysisContext.no_options in
  let call :=
    AnalysisContext.createCoverageMapping env stringify net refresh mappingData in
  let s' := AnalysisContext.state_after call s in
  net post = AnalysisContext.Resolved r ->
  AnalysisContext.ok r = true ->
  AnalysisContext.json_body r = AnalysisContext.Returned created ->
  refresh get = AnalysisContext.Resolved r' ->
  AnalysisContext.ok r' = true ->
  AnalysisContext.json_body r' = AnalysisContext.Returned listed ->
  AnalysisContext.result_of call s = AnalysisContext.Returned created
  /\ AnalysisContext.requests_of (AnalysisContext.trace_of call s) = [post; get]
  /\ AnalysisContext.req_url post = AnalysisContext.req_url get
  /\ AnalysisContext.coverageMappings s' = listed
  /\ (AnalysisContext.analyses s', AnalysisContext.currentAnalysis s',
      AnalysisContext.repositories s', AnalysisContext.stats s')
     = (AnalysisContext.analyses s, AnalysisContext.currentAnalysis s,
        AnalysisContext.repositories s, AnalysisContext.stats s)
  /\ AnalysisContext.loading s' = false
  /\ AnalysisContext.error s' = None.
Proof.
  intros post get call s' Hnet Hok Hbody Hnet' Hok' Hbody'.
  subst post get call s'.
  unfold AnalysisContext.result_of, AnalysisContext.state_after,
    AnalysisContext.trace_of.
  rewrite (createCoverageMapping_success env stringify net refresh s
             mappingData r created r' listed Hnet Hok Hbody Hnet' Hok' Hbody').
  repeat split.
Qed.

Lemma createCoverageMapping_success_refreshes_list_witness :
  let stringify : AnalysisContext.json -> string := fun _ => "{}"%string in
  let created := AnalysisContext.JNumber 7 in
  let listed := [AnalysisContext.JNumber 6; AnalysisContext.JNumber 7] in
  let r := AnalysisContext.Response 201 (AnalysisContext.Returned created) in
  let r' := AnalysisContext.Response 200 (AnalysisContext.Returned listed) in
  let net : AnalysisContext.request
            -> AnalysisContext.fetch_result AnalysisContext.json :=
    fun _ => AnalysisContext.Resolved r in
  let refresh : AnalysisContext.request
                -> AnalysisContext.fetch_result (list AnalysisContext.json) :=
    fun _ => AnalysisContext.Resolved r' in
  let call :=
    AnalysisContext.createCoverageMapping None stringify net refresh
      AnalysisContext.JNull in
  AnalysisContext.ok r = true
  /\ AnalysisContext.ok r' = true
  /\ AnalysisContext.result_of call AnalysisContext.initialState
     = AnalysisContext.Returned created.
Proof.
  intros stringify created listed r r' net refresh call.
  split; [reflexivity|]. split; [reflexivity|].
  exact (proj1 (createCoverageMapping_success_refreshes_list
                  None stringify net refresh AnalysisContext.JNull
                  AnalysisContext.initialState r created r' listed
                  eq_refl eq_refl eq_refl eq_refl eq_refl eq_refl)).
Defined.

(** X16.  When the POST of [createCoverageMapping] succeeds but the
    refresh fails, the call as a whole throws the refresh's error although
    the mapping was posted: the POST's body is not returned, [error] holds
    the refresh's message, [coverageMappings] and the other data fields
    stay as they were, and the error is logged twice, once by
    [getCoverageMappings] and once by [createCoverageMapping]. *)
Theorem createCoverageMapping_failed_refresh_throws
    (env : option string)
    (stringify : AnalysisContext.json -> string)
    (net : AnalysisContext.request
           -> AnalysisContext.fetch_result AnalysisContext.json)
    (refresh : AnalysisContext.request
               -> AnalysisContext.fetch_result (list AnalysisContext.json))
    (mappingData : AnalysisContext.json) (s : AnalysisContext.state)
    (r : AnalysisContext.response AnalysisContext.json)
    (created : AnalysisContext.json) (e : AnalysisContext.js_error) :
  let post :=
    AnalysisContext.request_of env "/api/v1/coverage-mappings"
      (AnalysisContext.post_options stringify mappingData) in
  let get :=
    AnalysisContext.request_of env "/api/v1/coverage-mappings"
      AnalysisContext.no_options in
  let call :=
    AnalysisContext.createCoverageMapping env stringify net refresh mappingData in
  let s' := AnalysisContext.state_after call s in
  net post = AnalysisContext.Resolved r ->
  AnalysisContext.ok r = true ->
  AnalysisContext.json_body r = AnalysisContext.Returned created ->
  failure (refresh get) = Some e ->
  AnalysisContext.result_of call s = AnalysisContext.Thrown e
  /\ AnalysisContext.requests_of (AnalysisContext.trace_of call s) = [post; get]
  /\ AnalysisContext.logged_of (AnalysisContext.trace_of call s)
     = [ ("Failed to fetch coverage mappings:"%string, e);
         ("Failed to create coverage mapping:"%string, e) ]
  /\ same_data s s'
  /\ AnalysisContext.loading s' = false
  /\ AnalysisContext.error s'
     = Some (AnalysisContext.or_else (AnalysisContext.message e)
               "An error occurred").
Proof.
  intros post get call s' Hnet Hok Hbody He. subst post get call s'.
  unfold AnalysisContext.result_of, AnalysisContext.state_after,
    AnalysisContext.trace_of.
  rewrite (createCoverageMapping_refresh_failure env stringify net refresh s
             mappingData r created e Hnet Hok Hbody He).
  repeat split.
Qed.

Lemma createCoverageMapping_failed_refresh_throws_witness :
  let stringify : AnalysisContext.json -> string := fun _ => "{}"%string in
  let created := AnalysisContext.JNumber 7 in
  let r := AnalysisContext.Response 201 (AnalysisContext.Returned created) in
  let net : AnalysisContext.request
            -> AnalysisContext.fetch_result AnalysisContext.json :=
    fun _ => AnalysisContext.Resolved r in
  let refresh : AnalysisContext.request
                -> AnalysisContext.fetch_result (list AnalysisContext.json) :=
    fun _ => AnalysisContext.Rejected (AnalysisContext.Error "Failed to fetch") in
  let call :=
    AnalysisContext.createCoverageMapping None stringify net refresh
      AnalysisContext.JNull in
  AnalysisContext.ok r = true
  /\ AnalysisContext.result_of call AnalysisContext.initialState
     = AnalysisContext.Thrown (AnalysisContext.Error "Failed to fetch").
Proof.
  intros stringify created r net refresh call.
  split; [reflexivity|].
  exact (proj1 (createCoverageMapping_failed_refresh_throws
                  None stringify net refresh AnalysisContext.JNull
                  AnalysisContext.initialState r created _
                  eq_refl eq_refl eq_refl eq_refl)).
Defined.

(* ===================================================================== *)
(** ** Further properties of the reducer *)
(* ===================================================================== *)

Section ReducerFacts.
Import AnalysisContext.

(** One step of the reducer never removes a key of [stats]. *)
Lemma analysisReducer_keeps_stats_keys (s : state) (a : action) (key : string) :
  is_Some (stats s !! key) -> is_Some (stats (analysisReducer s a) !! key).
Proof.
  destruct a; cbn; try (intros H; exact H).
  intros [v Hv]. rewrite lookup_union.
  destruct (payload !! key) as [v'|]; rewrite Hv; eauto.
Qed.

Lemma last_cons_default {X : Type} (x : X) (l : list X) (d d' : X) :
  List.last (x :: l) d = List.last (x :: l) d'.
Proof.
  revert x. induction l as [|y l IH]; intros x; [reflexivity|].
  change (List.last (y :: l) d = List.last (y :: l) d'). apply IH.
Qed.

Lemma fold_ADD_ANALYSIS (payloads : list json) (s : state) :
  let s' := fold_left analysisReducer (map ADD_ANALYSIS payloads) s in
  analyses s' = rev payloads ++ analyses s
  /\ currentAnalysis s' = List.last payloads (currentAnalysis s)
  /\ (loading s', error s', repositories s', coverageMappings s', stats s')
     = (loading s, error s, repositories s, coverageMappings s, stats s).
Proof.
  revert s. induction payloads as [|p payloads IH]; intros s; cbn zeta.
  - repeat split.
  - cbn [map fold_left].
    destruct (IH (analysisReducer s (ADD_ANALYSIS p))) as (Ha & Hc & Hrest).
    rewrite Ha, Hc, Hrest. cbn [analyses currentAnalysis analysisReducer].
    repeat split.
    + cbn [rev]. rewrite <- app_assoc. reflexivity.
    + destruct payloads as [|q payloads]; [reflexivity|].
      change (List.last (q :: payloads) p
              = List.last (q :: payloads) (currentAnalysis s)).
      apply last_cons_default.
Qed.

End ReducerFacts.

(** X17.  No sequence of actions ever removes a key from [stats]: a key
    present before is present after, so the four counters of the initial
    state are there in every state the reducer can reach. *)
Theorem stats_keys_are_never_lost (actions : list AnalysisContext.action) :
  (forall (s : AnalysisContext.state) (key : string),
      is_Some (AnalysisContext.stats s !! key) ->
      is_Some (AnalysisContext.stats
                 (fold_left AnalysisContext.analysisReducer actions s) !! key))
  /\ (forall key : string,
        In key ["totalAnalyses"; "totalTimeSaved"; "averageRiskScore";
                "totalTestsSelected"]%string ->
        is_Some (AnalysisContext.stats
                   (fold_left AnalysisContext.analysisReducer actions
                      AnalysisContext.initialState) !! key)).
Proof.
  assert (H : forall (s : AnalysisContext.state) (key : string),
             is_Some (AnalysisContext.stats s !! key) ->
             is_Some (AnalysisContext.stats
                        (fold_left AnalysisContext.analysisReducer actions s)
                      !! key)).
  { induction actions as [|a actions IH]; intros s key Hkey; cbn [fold_left].
    - exact Hkey.
    - apply IH, analysisReducer_keeps_stats_keys, Hkey. }
  split; [exact H|].
  intros key Hin. apply H.
  destruct Hin as [<- | [<- | [<- | [<- | []]]]]; vm_compute; eauto.
Qed.

Lemma stats_keys_are_never_lost_witness :
  let actions :=
    [ AnalysisContext.UPDATE_STATS {[ "totalAnalyses"%string :=
                                        AnalysisContext.JNumber 3 ]};
      AnalysisContext.SET_ERROR "HTTP error! status: 500";
      AnalysisContext.UPDATE_STATS ∅ ] in
  In "totalTimeSaved"%string
     ["totalAnalyses"; "totalTimeSaved"; "averageRiskScore";
      "totalTestsSelected"]%string
  /\ is_Some (AnalysisContext.stats
                (fold_left AnalysisContext.analysisReducer actions
                   AnalysisContext.initialState) !! "totalTimeSaved"%string).
Proof.
  intros actions.
  assert (H : In "totalTimeSaved"%string
                 ["totalAnalyses"; "totalTimeSaved"; "averageRiskScore";
                  "totalTestsSelected"]%string)
    by (right; left; reflexivity).
  split; [exact H|].
  exact (proj2 (stats_keys_are_never_lost actions) _ H).
Defined.

(** X18.  Two UPDATE_STATS in a row act as one whose payload is the
    second merged over the first; an empty payload changes nothing, and
    repeating a payload changes nothing more. *)
Theorem update_stats_composes
    (s : AnalysisContext.state)
    (first second : gmap string AnalysisContext.json) :
  AnalysisContext.analysisReducer
    (AnalysisContext.analysisReducer s (AnalysisContext.UPDATE_STATS first))
    (AnalysisContext.UPDATE_STATS second)
  = AnalysisContext.analysisReducer s
      (AnalysisContext.UPDATE_STATS (second ∪ first))
  /\ AnalysisContext.analysisReducer s (AnalysisContext.UPDATE_STATS ∅) = s
  /\ AnalysisContext.analysisReducer
       (AnalysisContext.analysisReducer s (AnalysisContext.UPDATE_STATS first))
       (AnalysisContext.UPDATE_STATS first)
     = AnalysisContext.analysisReducer s (AnalysisContext.UPDATE_STATS first).
Proof.
  repeat apply conj.
  - cbn. rewrite (assoc_L (∪)). reflexivity.
  - destruct s. cbn. rewrite (left_id_L ∅ (∪)). reflexivity.
  - cbn. rewrite (assoc_L (∪)), (idemp_L (∪)). reflexivity.
Qed.

(** X19.  A run of ADD_ANALYSIS actions stacks the results newest first:
    [analyses] is the payloads in reverse order in front of the old list,
    [currentAnalysis] is the last payload (the old one if there was none),
    and nothing else changes. *)
Theorem add_analysis_stacks_newest_first
    (payloads : list AnalysisContext.json) (s : AnalysisContext.state) :
  let s' :=
    fold_left AnalysisContext.analysisReducer
      (map AnalysisContext.ADD_ANALYSIS payloads) s in
  AnalysisContext.analyses s' = rev payloads ++ AnalysisContext.analyses s
  /\ length (AnalysisContext.analyses s')
     = (length payloads + length (AnalysisContext.analyses s))%nat
  /\ AnalysisContext.currentAnalysis s'
     = List.last payloads (AnalysisContext.currentAnalysis s)
  /\ (AnalysisContext.loading s', AnalysisContext.error s',
      AnalysisContext.repositories s', AnalysisContext.coverageMappings s',
      AnalysisContext.stats s')
     = (AnalysisContext.loading s, AnalysisContext.error s,
        AnalysisContext.repositories s, AnalysisContext.coverageMappings s,
        AnalysisContext.stats s).
Proof.
  intros s'. subst s'.
  destruct (fold_ADD_ANALYSIS payloads s) as (Ha & Hc & Hrest).
  repeat apply conj; try assumption.
  rewrite Ha, length_app, length_rev. reflexivity.
Qed.

(* ===================================================================== *)
(** ** The changed-files rows of the Analysis form *)
(* ===================================================================== *)

Section IndexedArrays.
Import JsArray.
Context {A : Type}.

Local Open Scope Z_scope.

(** Dropping the element at one index: outside the array nothing goes,
    inside it the elements before and after stay in order. *)
Lemma filter_indexed_from_drop_index (index from : Z) (l : list A) :
  filter_indexed_from (fun _ i => negb (i =? index)) from l
  = if (from <=? index) && (index <? from + Z.of_nat (length l))
    then take (Z.to_nat (index - from)) l
         ++ drop (S (Z.to_nat (index - from))) l
    else l.
Proof.
  revert from. induction l as [|x l IH]; intros from.
  - cbn [filter_indexed_from length].
    destruct ((from <=? index) && (index <? from + Z.of_nat 0)) eqn:E;
      [|reflexivity].
    apply andb_true_iff in E as [E1 E2].
    apply Z.leb_le in E1. apply Z.ltb_lt in E2. lia.
  - cbn [filter_indexed_from]. rewrite IH.
    destruct (Z.eqb_spec from index) as [-> | Hne]; cbn [negb].
    + replace (index + 1 <=? index) with false by (symmetry; apply Z.leb_gt; lia).
      replace (index <=? index) with true by (symmetry; apply Z.leb_le; lia).
      replace (index <? index + Z.of_nat (length (x :: l))) with true
        by (symmetry; apply Z.ltb_lt; cbn [length]; lia).
      cbn [andb]. rewrite Z.sub_diag. reflexivity.
    + destruct (Z.leb_spec (from + 1) index) as [Hle | Hgt].
      * replace (from <=? index) with true by (symmetry; apply Z.leb_le; lia).
        replace (from + 1 + Z.of_nat (length l))
          with (from + Z.of_nat (length (x :: l))) by (cbn [length]; lia).
        destruct (index <? from + Z.of_nat (length (x :: l))); cbn [andb];
          [|reflexivity].
        replace (Z.to_nat (index - from))
          with (S (Z.to_nat (index - (from + 1)))) by lia.
        reflexivity.
      * replace (from <=? index) with false by (symmetry; apply Z.leb_gt; lia).
        reflexivity.
Qed.

Lemma lookup_map_indexed_from {B : Type} (f : A -> Z -> B) (from : Z)
    (l : list A) (k : nat) :
  map_indexed_from f from l !! k
  = (fun x => f x (from + Z.of_nat k)) <$> (l !! k).
Proof.
  revert from k. induction l as [|x l IH]; intros from k.
  - reflexivity.
  - destruct k as [|k]; cbn [map_indexed_from].
    + cbn. rewrite Z.add_0_r. reflexivity.
    + cbn [lookup list_lookup]. rewrite IH. destruct (l !! k); cbn; [|reflexivity].
      do 2 f_equal. lia.
Qed.

Lemma length_map_indexed_from {B : Type} (f : A -> Z -> B) (from : Z)
    (l : list A) :
  length (map_indexed_from f from l) = length l.
Proof.
  revert from. induction l as [|x l IH]; intros from; cbn; [reflexivity|].
  rewrite IH. reflexivity.
Qed.

End IndexedArrays.

Section ChangedFiles.

(** The rows [removeChangedFile] leaves for an index inside the list. *)
Lemma removeChangedFile_rows (index : Z) (prev : Analysis.form) :
  ((0 <= index < Z.of_nat (length (Analysis.changedFiles prev)))%Z ->
   Analysis.changedFiles (Analysis.removeChangedFile index prev)
   = take (Z.to_nat index) (Analysis.changedFiles prev)
     ++ drop (S (Z.to_nat index)) (Analysis.changedFiles prev)
   /\ S (length (Analysis.changedFiles (Analysis.removeChangedFile index prev)))
      = length (Analysis.changedFiles prev))
  /\ ((index < 0 \/ Z.of_nat (length (Analysis.changedFiles prev)) <= index)%Z ->
      Analysis.changedFiles (Analysis.removeChangedFile index prev)
      = Analysis.changedFiles prev).
Proof.
  unfold Analysis.removeChangedFile, JsArray.filter_indexed.
  cbn [Analysis.changedFiles].
  rewrite filter_indexed_from_drop_index, Z.sub_0_r, Z.add_0_l.
  split.
  - intros [H0 Hn].
    replace (0 <=? index)%Z with true by (symmetry; apply Z.leb_le; lia).
    replace (index <? Z.of_nat (length (Analysis.changedFiles prev)))%Z
      with true by (symmetry; apply Z.ltb_lt; lia).
    cbn [andb]. split; [reflexivity|].
    rewrite length_app, length_take, length_drop. lia.
  - intros Hout.
    replace ((0 <=? index)%Z
             && (index <? Z.of_nat (length (Analysis.changedFiles prev)))%Z)
      with false; [reflexivity|].
    symmetry. apply andb_false_iff.
    destruct Hout; [left; apply Z.leb_gt | right; apply Z.ltb_ge]; lia.
Qed.

Lemma length_updateChangedFile (index : Z) (field value : string)
    (prev : Analysis.form) :
  length (Analysis.changedFiles
            (Analysis.updateChangedFile index field value prev))
  = length (Analysis.changedFiles prev).
Proof.
  unfold Analysis.updateChangedFile, JsArray.map_indexed.
  cbn [Analysis.changedFiles]. apply length_map_indexed_from.
Qed.

End ChangedFiles.

(** X20.  [removeChangedFile] drops exactly the row at the given index:
    for an index inside the list the rows before and after it remain, in
    order, and the list is one shorter; for an index outside the list
    (negative, or at or beyond the length) nothing changes.  The other
    fields of the form are never touched. *)
Theorem removeChangedFile_drops_one_row (index : Z) (prev : Analysis.form) :
  let rows := Analysis.changedFiles prev in
  let after := Analysis.removeChangedFile index prev in
  ((0 <= index < Z.of_nat (length rows))%Z ->
   Analysis.changedFiles after
   = take (Z.to_nat index) rows ++ drop (S (Z.to_nat index)) rows
   /\ S (length (Analysis.changedFiles after)) = length rows)
  /\ ((index < 0 \/ Z.of_nat (length rows) <= index)%Z -> after = prev)
  /\ (Analysis.repository after, Analysis.branch after,
      Analysis.pullRequestId after)
     = (Analysis.repository prev, Analysis.branch prev,
        Analysis.pullRequestId prev).
Proof.
  intros rows after. subst rows after.
  destruct (removeChangedFile_rows index prev) as [Hin Hout].
  repeat apply conj.
  - exact Hin.
  - intros H. specialize (Hout H).
    destruct prev as [repository branch pullRequestId rows].
    unfold Analysis.removeChangedFile in *. cbn in *. f_equal. exact Hout.
  - reflexivity.
Qed.

Lemma removeChangedFile_drops_one_row_witness :
  let file (path : string) : gmap string string :=
    {[ "path"%string := path; "type"%string := "source"%string ]} in
  let prev :=
    {| Analysis.repository := "company/frontend-app";
       Analysis.branch := "main";
       Analysis.pullRequestId := "";
       Analysis.changedFiles := [file "a.js"; file "b.js"; file "c.js"] |} in
  (0 <= 1 < Z.of_nat (length (Analysis.changedFiles prev)))%Z
  /\ Analysis.changedFiles (Analysis.removeChangedFile 1 prev)
     = [file "a.js"; file "c.js"].
Proof.
  intros file prev.
  assert (H : (0 <= 1 < Z.of_nat (length (Analysis.changedFiles prev)))%Z)
    by (cbn; lia).
  split; [exact H|].
  exact (proj1 (proj1 (removeChangedFile_drops_one_row 1 prev) H)).
Defined.

(** X21.  [updateChangedFile] writes one key of one row: the list keeps
    its length, the row at the given index reads back the new value under
    the given key and its old values under every other key, every other
    row is untouched, and an index outside the list changes no row. *)
Theorem updateChangedFile_writes_one_key
    (index : Z) (field value : string) (prev : Analysis.form) :
  let rows := Analysis.changedFiles prev in
  let after :=
    Analysis.changedFiles (Analysis.updateChangedFile index field value prev) in
  length after = length rows
  /\ (forall (k : nat) (file : gmap string string),
        rows !! k = Some file ->
        (Z.of_nat k = index ->
         exists file',
           after !! k = Some file'
           /\ file' !! field = Some value
           /\ forall other, other <> field -> file' !! other = file !! other)
        /\ (Z.of_nat k <> index -> after !! k = Some file))
  /\ ((index < 0 \/ Z.of_nat (length rows) <= index)%Z -> after = rows).
Proof.
  intros rows after. subst rows after.
  unfold Analysis.updateChangedFile, JsArray.map_indexed.
  cbn [Analysis.changedFiles].
  assert (Hrow : forall (k : nat) (file : gmap string string),
             Analysis.changedFiles prev !! k = Some file ->
             JsArray.map_indexed_from
               (fun file i =>
                  if (i =? index)%Z then <[field:=value]> file else file)
               0 (Analysis.changedFiles prev) !! k
             = Some (if (Z.of_nat k =? index)%Z
                     then <[field:=value]> file else file)).
  { intros k file Hk. rewrite lookup_map_indexed_from, Hk. reflexivity. }
  repeat apply conj.
  - apply length_map_indexed_from.
  - intros k file Hk. rewrite (Hrow k file Hk). split; intros Hidx.
    + apply Z.eqb_eq in Hidx. rewrite Hidx.
      exists (<[field:=value]> file). split; [reflexivity|].
      split; [apply lookup_insert_eq|].
      intros other Hother. apply lookup_insert_ne. congruence.
    + apply Z.eqb_neq in Hidx. rewrite Hidx. reflexivity.
  - intros Hout. apply list_eq. intros k.
    destruct (Analysis.changedFiles prev !! k) as [file|] eqn:Hk.
    + rewrite (Hrow k file Hk).
      apply lookup_lt_Some in Hk.
      replace (Z.of_nat k =? index)%Z with false; [reflexivity|].
      symmetry. apply Z.eqb_neq. lia.
    + rewrite lookup_map_indexed_from, Hk. reflexivity.
Qed.

Lemma updateChangedFile_writes_one_key_witness :
  let prev := Analysis.addChangedFile Analysis.initial_form in
  let after :=
    Analysis.changedFiles
      (Analysis.updateChangedFile 1 "path" "src/App.jsx" prev) in
  Analysis.changedFiles prev !! 1%nat = Some Analysis.new_file
  /\ length after = 2%nat.
Proof.
  intros prev after. split; [reflexivity|].
  exact (proj1 (updateChangedFile_writes_one_key 1 "path" "src/App.jsx" prev)).
Defined.

(** X22.  The form never runs out of rows.  Add File appends one empty
    source row, and removing that last row again gives the form back.
    The remove buttons are rendered only while there is more than one row,
    so whatever the user presses and types, starting from a form with at
    least one row (as the initial form is), at least one row remains. *)
Theorem changed_files_never_empty :
  (forall prev : Analysis.form,
      Analysis.changedFiles (Analysis.addChangedFile prev)
      = Analysis.changedFiles prev ++ [Analysis.new_file]
      /\ Analysis.removeChangedFile
           (Z.of_nat (length (Analysis.changedFiles prev)))
           (Analysis.addChangedFile prev)
         = prev)
  /\ (forall (events : list Analysis.row_event) (prev : Analysis.form),
        (1 <= length (Analysis.changedFiles prev))%nat ->
        (1 <= length (Analysis.changedFiles
                        (fold_left Analysis.handle_row_event events prev)))%nat)
  /\ (forall events : list Analysis.row_event,
        Analysis.changedFiles
          (fold_left Analysis.handle_row_event events Analysis.initial_form)
        <> []).
Proof.
  assert (Hstep : forall (prev : Analysis.form) (ev : Analysis.row_event),
             (1 <= length (Analysis.changedFiles prev))%nat ->
             (1 <= length (Analysis.changedFiles
                             (Analysis.handle_row_event prev ev)))%nat).
  { intros prev [|index|index field value] Hprev; cbn [Analysis.handle_row_event].
    - cbn. rewrite length_app. cbn. lia.
    - destruct (Analysis.remove_button_shown prev) eqn:Hshown; cbn [andb];
        [|exact Hprev].
      destruct (Nat.ltb_spec index (length (Analysis.changedFiles prev)))
        as [Hin | Hout]; [|exact Hprev].
      unfold Analysis.remove_button_shown in Hshown.
      apply Z.ltb_lt in Hshown.
      destruct (proj1 (removeChangedFile_rows (Z.of_nat index) prev)
                  ltac:(lia)) as [_ Hlen].
      lia.
    - rewrite (length_updateChangedFile (Z.of_nat index) field value prev).
      exact Hprev. }
  assert (Hall : forall (events : list Analysis.row_event) (prev : Analysis.form),
             (1 <= length (Analysis.changedFiles prev))%nat ->
             (1 <= length (Analysis.changedFiles
                             (fold_left Analysis.handle_row_event events prev)))%nat).
  { induction events as [|ev events IH]; intros prev Hprev; cbn [fold_left].
    - exact Hprev.
    - apply IH, Hstep, Hprev. }
  repeat apply conj.
  - intros prev. split; [reflexivity|].
    destruct (proj1 (removeChangedFile_rows
                       (Z.of_nat (length (Analysis.changedFiles prev)))
                       (Analysis.addChangedFile prev))) as [Hrows _].
    { cbn. rewrite length_app. cbn. lia. }
    destruct prev as [repository branch pullRequestId rows].
    unfold Analysis.removeChangedFile, Analysis.addChangedFile in *.
    cbn [Analysis.changedFiles Analysis.repository Analysis.branch
         Analysis.pullRequestId] in *.
    f_equal. rewrite Hrows, Nat2Z.id, take_app_length.
    rewrite drop_ge by (rewrite length_app; cbn; lia).
    apply app_nil_r.
  - exact Hall.
  - intros events Hnil.
    pose proof (Hall events Analysis.initial_form ltac:(cbn; lia)) as H.
    rewrite Hnil in H. cbn in H. lia.
Qed.

Lemma changed_files_never_empty_witness :
  let events :=
    [ Analysis.PressRemove 0;
      Analysis.PressAdd;
      Analysis.ChangeInput 1 "path" "src/App.jsx";
      Analysis.PressRemove 0;
      Analysis.PressRemove 0 ] in
  (1 <= length (Analysis.changedFiles Analysis.initial_form))%nat
  /\ (1 <= length (Analysis.changedFiles
                     (fold_left Analysis.handle_row_event events
                        Analysis.initial_form)))%nat.
Proof.
  intros events.
  assert (H : (1 <= length (Analysis.changedFiles Analysis.initial_form))%nat)
    by (cbn; lia).
  split; [exact H|].
  exact (proj1 (proj2 changed_files_never_empty) events
           Analysis.initial_form H).
Defined.

(* ===================================================================== *)
(** ** The settings objects *)
(* ===================================================================== *)

Section SettingsFacts.
Import Settings.

Ltac by_section :=
  unfold handleInputChange, section_of;
  repeat match goal with
         | |- context [String.eqb ?a ?b] =>
             destruct (String.eqb_spec a b); subst
         | H : context [String.eqb ?a ?b] |- _ =>
             destruct (String.eqb_spec a b); subst
         end;
  cbn [profileData notificationSettings apiSettings securitySettings];
  try discriminate; try congruence.

Lemma handleInputChange_section (section field : string) (v : value)
    (st : settings) (object : gmap string value) :
  section_of section st = Some object ->
  section_of section (handleInputChange section field v st)
  = Some (<[field := v]> object).
Proof. by_section. Qed.

Lemma handleInputChange_other (section other field : string) (v : value)
    (st : settings) :
  other <> section ->
  section_of other (handleInputChange section field v st)
  = section_of other st.
Proof. intros H. by_section. Qed.

Lemma handleInputChange_unknown (section field : string) (v : value)
    (st : settings) :
  section_of section st = None ->
  handleInputChange section field v st = st.
Proof. by_section. Qed.

Lemma settings_eq (a b : settings) :
  (forall section, section_of section a = section_of section b) -> a = b.
Proof.
  intros H.
  pose proof (H "profile"%string) as H1.
  pose proof (H "notifications"%string) as H2.
  pose proof (H "api"%string) as H3.
  pose proof (H "security"%string) as H4.
  destruct a, b. cbn in *. congruence.
Qed.

End SettingsFacts.

(** X23.  [handleInputChange] writes one field of one section: for one of
    the four section names the object of that section reads back the new
    value under the field and its old values under every other field,
    and the objects of the other three sections are untouched; for any
    other section name the settings are unchanged. *)
Theorem handleInputChange_writes_one_field
    (section field : string) (v : Settings.value) (st : Settings.settings) :
  let after := Settings.handleInputChange section field v st in
  (forall object,
      Settings.section_of section st = Some object ->
      exists object',
        Settings.section_of section after = Some object'
        /\ object' !! field = Some v
        /\ forall other, other <> field -> object' !! other = object !! other)
  /\ (forall other, other <> section ->
        Settings.section_of other after = Settings.section_of other st)
  /\ (Settings.section_of section st = None -> after = st)
  /\ (Settings.section_of section st = None
      <-> ~ In section ["profile"; "notifications"; "api"; "security"]%string).
Proof.
  intros after. subst after. repeat apply conj.
  - intros object Hobject. exists (<[field := v]> object).
    split; [exact (handleInputChange_section section field v st object Hobject)|].
    split; [apply lookup_insert_eq|].
    intros other Hother. apply lookup_insert_ne. congruence.
  - intros other Hother. apply handleInputChange_other, Hother.
  - apply handleInputChange_unknown.
  - unfold Settings.section_of.
    repeat match goal with
           | |- context [String.eqb ?a ?b] =>
               destruct (String.eqb_spec a b); subst
           end;
      intros Hnone; try discriminate Hnone;
      intros [H | [H | [H | [H | []]]]]; congruence.
  - unfold Settings.section_of.
    repeat match goal with
           | |- context [String.eqb ?a ?b] =>
               destruct (String.eqb_spec a b); subst
           end;
      intros Hin; try reflexivity; exfalso; apply Hin; cbn; auto.
Qed.

Lemma handleInputChange_writes_one_field_witness :
  let st :=
    {| Settings.profileData := {[ "firstName"%string := Settings.Text "John" ]};
       Settings.notificationSettings :=
         {[ "weeklyReports"%string := Settings.Switch false ]};
       Settings.apiSettings := {[ "timeout"%string := Settings.Number 30 ]};
       Settings.securitySettings :=
         {[ "twoFactorAuth"%string := Settings.Switch false ]} |} in
  Settings.section_of "appearance" st = None
  /\ Settings.handleInputChange "appearance" "theme" (Settings.Text "dark") st
     = st.
Proof.
  intros st.
  assert (H : Settings.section_of "appearance" st = None) by reflexivity.
  split; [exact H|].
  exact (proj1 (proj2 (proj2 (handleInputChange_writes_one_field
                                "appearance" "theme" (Settings.Text "dark") st)))
           H).
Defined.

(** X24.  Writes to the settings behave like assignments: a second write
    to the same field of the same section overrides the first, writing
    back the value a field already has changes nothing, and two writes to
    different fields, or to different sections, give the same settings
    in either order. *)
Theorem handleInputChange_last_write_wins
    (st : Settings.settings) (section field : string) (v1 v2 : Settings.value) :
  Settings.handleInputChange section field v2
    (Settings.handleInputChange section field v1 st)
  = Settings.handleInputChange section field v2 st
  /\ (forall object,
        Settings.section_of section st = Some object ->
        object !! field = Some v1 ->
        Settings.handleInputChange section field v1 st = st)
  /\ (forall section' field',
        (section', field') <> (section, field) ->
        Settings.handleInputChange section' field' v2
          (Settings.handleInputChange section field v1 st)
        = Settings.handleInputChange section field v1
            (Settings.handleInputChange section' field' v2 st)).
Proof.
  repeat apply conj.
  - apply settings_eq. intros name.
    destruct (decide (name = section)) as [-> | Hne].
    + destruct (Settings.section_of section st) as [object|] eqn:Hsec.
      * rewrite (handleInputChange_section section field v2 _
                   (<[field := v1]> object)
                   (handleInputChange_section section field v1 st object Hsec)).
        rewrite (handleInputChange_section section field v2 st object Hsec).
        rewrite insert_insert_eq. reflexivity.
      * rewrite !(handleInputChange_unknown section field _ st Hsec).
        reflexivity.
    + rewrite !handleInputChange_other by exact Hne. reflexivity.
  - intros object Hsec Hfield. apply settings_eq. intros name.
    destruct (decide (name = section)) as [-> | Hne].
    + rewrite (handleInputChange_section section field v1 st object Hsec), Hsec.
      rewrite insert_id by exact Hfield. reflexivity.
    + apply handleInputChange_other, Hne.
  - intros section' field' Hdiff. apply settings_eq. intros name.
    destruct (Settings.section_of section st) as [object|] eqn:Hsec;
      [|rewrite !(handleInputChange_unknown section field v1) by
          (first [exact Hsec
                 | destruct (decide (section = section')) as [<- | Hne];
                   [ destruct (Settings.section_of section
                                 (Settings.handleInputChange section field' v2 st))
                       eqn:E; [|reflexivity];
                     rewrite (handleInputChange_unknown section field' v2 st Hsec)
                       in E; congruence
                   | rewrite handleInputChange_other by exact Hne; exact Hsec ]]);
       reflexivity].
    destruct (Settings.section_of section' st) as [object'|] eqn:Hsec';
      [|rewrite !(handleInputChange_unknown section' field' v2) by
          (first [exact Hsec'
                 | destruct (decide (section' = section)) as [<- | Hne];
                   [ congruence
                   | rewrite handleInputChange_other by exact Hne; exact Hsec' ]]);
       reflexivity].
    destruct (decide (section' = section)) as [-> | Hsections].
    + assert (Hfields : field' <> field) by congruence.
      assert (object' = object) as -> by congruence.
      destruct (decide (name = section)) as [-> | Hne].
      * rewrite (handleInputChange_section section field' v2 _
                   (<[field := v1]> object)
                   (handleInputChange_section section field v1 st object Hsec)).
        rewrite (handleInputChange_section section field v1 _
                   (<[field' := v2]> object)
                   (handleInputChange_section section field' v2 st object Hsec)).
        rewrite insert_insert_ne by congruence. reflexivity.
      * rewrite !handleInputChange_other by exact Hne. reflexivity.
    + destruct (decide (name = section)) as [-> | Hne].
      * rewrite (handleInputChange_other section' section) by congruence.
        rewrite (handleInputChange_section section field v1 st object Hsec).
        rewrite (handleInputChange_section section field v1 _ object).
        -- reflexivity.
        -- rewrite handleInputChange_other by congruence. exact Hsec.
      * destruct (decide (name = section')) as [-> | Hne'].
        -- rewrite (handleInputChange_other section section') by congruence.
           rewrite (handleInputChange_section section' field' v2 st object' Hsec').
           rewrite (handleInputChange_section section' field' v2 _ object').
           ++ reflexivity.
           ++ rewrite handleInputChange_other by congruence. exact Hsec'.
        -- rewrite !handleInputChange_other by assumption. reflexivity.
Qed.

Lemma handleInputChange_last_write_wins_witness :
  let st :=
    {| Settings.profileData := {[ "firstName"%string := Settings.Text "John" ]};
       Settings.notificationSettings :=
         {[ "weeklyReports"%string := Settings.Switch false ]};
       Settings.apiSettings := {[ "timeout"%string := Settings.Number 30 ]};
       Settings.securitySettings :=
         {[ "twoFactorAuth"%string := Settings.Switch false ]} |} in
  ("api"%string, "timeout"%string) <> ("notifications"%string, "weeklyReports"%string)
  /\ Settings.handleInputChange "api" "timeout" (Settings.Number 60)
       (Settings.handleInputChange "notifications" "weeklyReports"
          (Settings.Switch true) st)
     = Settings.handleInputChange "notifications" "weeklyReports"
         (Settings.Switch true)
         (Settings.handleInputChange "api" "timeout" (Settings.Number 60) st).
Proof.
  intros st.
  assert (H : ("api"%string, "timeout"%string)
              <> ("notifications"%string, "weeklyReports"%string))
    by discriminate.
  split; [exact H|].
  exact (proj2 (proj2 (handleInputChange_last_write_wins
                         st "notifications" "weeklyReports"
                         (Settings.Switch true) (Settings.Number 60)))
           "api"%string "timeout"%string H).
Defined.
